(** * Watch mode of the test runner: prompt matching, reporter dispatch,
      and the watch controller.

    A shallow embedding of

    - [TestNamePatternPrompt._getMatchedTests] and
      [TestNamePatternPrompt.updateCachedTestResults],
    - [ReporterDispatcher.onTestFileResult] and
      [ReporterDispatcher.onTestFileStart],
    - [watch] with its closures [startRun], [onKeypress],
      [writeCurrentPattern] and the file-change listener, and [usage],
    - the other methods of [ReporterDispatcher] ([unregister],
      [onRunStart], [onTestCaseResult], [onRunComplete], [getErrors],
      [hasErrors]) and of [TestNamePatternPrompt] ([run], [_onChange],
      [_printTypeahead]),

    followed by the properties of these functions.

    Conventions.  JavaScript strings are [string]s; one character of the
    model stands for one code unit.  A variable that can hold [undefined]
    is an [option].  An operation that can throw returns a [Completion].
    Objects shared between the controller and its collaborators live in an
    explicit store and are named by their index in it. *)

From Stdlib Require Import Ascii String ZArith.
From stdpp Require Import base strings list gmap.
From stdpp Require Import pretty.

Set Default Proof Using "Type".

(** ** JavaScript preliminaries *)

Inductive JsError :=
  | TypeError (message : string)
  | SyntaxError (message : string)
  | OtherError (stack : string).

(** The result of running a piece of code that may throw. *)
Inductive Completion (A : Type) :=
  | Return (a : A)
  | Throw (e : JsError).
Arguments Return {A} a.
Arguments Throw {A} e.

(** An argument that the caller may pass as [null] or [undefined]. *)
Inductive Nullable (A : Type) :=
  | Null
  | Undefined
  | Defined (a : A).
Arguments Null {A}.
Arguments Undefined {A}.
Arguments Defined {A} a.

(** [x || d] for an [x] that is an array when it is defined: every array,
    the empty one included, is truthy. *)
Definition or_default {A} (x : Nullable A) (d : A) : A :=
  match x with
  | Defined a => a
  | Null | Undefined => d
  end.

Definition nl : string := String (Ascii.ascii_of_nat 10) EmptyString.

(** ** TestNamePatternPrompt *)

Module TestNamePatternPrompt.

(** The two fields of a test result that the prompt reads. *)
Record AssertionResult := { title : string }.
Record TestResult := {
  testFilePath : string;
  testResults : list AssertionResult
}.

(** The prompt object; [_cachedTestResults] is not assigned by the
    constructor, so it is [undefined] until the first update. *)
Record Prompt := { _cachedTestResults : option (list TestResult) }.

Definition constructor : Prompt := {| _cachedTestResults := None |}.

Definition pluralizeTest (total : nat) : string :=
  if Nat.eqb total 1 then "test" else "tests".

Definition updateCachedTestResults
    (testResults : Nullable (list TestResult)) (this : Prompt) : Prompt :=
  {| _cachedTestResults := Some (or_default testResults []) |}.

Section Matching.
(** The regular-expression engine of the language: [RegExp_new p f] is
    [new RegExp(p, f)], [None] when it throws a SyntaxError;
    [RegExp_test r s] is [r.test(s)], which has no state for a regular
    expression without the global flag. *)
Context {RegExp : Type}.
Variable RegExp_new : string → string → option RegExp.
Variable RegExp_test : RegExp → string → bool.

(** The inner callback: [if (regex.test(title)) matchedTests.push(title)]. *)
Definition visitTitle (regex : RegExp) (matchedTests : list string)
    (a : AssertionResult) : list string :=
  if RegExp_test regex (title a) then matchedTests ++ [title a]
  else matchedTests.

(** The outer callback: [testResults.forEach(...)]. *)
Definition visitRecord (regex : RegExp) (matchedTests : list string)
    (r : TestResult) : list string :=
  foldl (visitTitle regex) matchedTests (testResults r).

Definition _getMatchedTests (this : Prompt) (pattern : string)
    : Completion (list string) :=
  match RegExp_new pattern "i" with
  | None => Return []
  | Some regex =>
      match _cachedTestResults this with
      | None => Throw (TypeError "Cannot read property 'forEach' of undefined")
      | Some cached => Return (foldl (visitRecord regex) [] cached)
      end
  end.

(** All cached titles, record after record. *)
Definition cachedTitles (cached : list TestResult) : list string :=
  r ← cached; title <$> testResults r.

End Matching.

(** A small engine to run the matching on: it accepts the patterns made
    of letters, digits and spaces, which denote themselves and are
    searched anywhere in the subject without regard to case, and it
    rejects every other pattern. *)
Module Words.

Definition lower (c : ascii) : ascii :=
  let n := nat_of_ascii c in
  if (65 <=? n)%nat && (n <=? 90)%nat then ascii_of_nat (n + 32) else c.

Definition isWordChar (c : ascii) : bool :=
  let n := nat_of_ascii c in
  ((65 <=? n)%nat && (n <=? 90)%nat)
  || ((97 <=? n)%nat && (n <=? 122)%nat)
  || ((48 <=? n)%nat && (n <=? 57)%nat)
  || (n =? 32)%nat.

Fixpoint isPrefix (p s : list ascii) : bool :=
  match p, s with
  | [], _ => true
  | _ :: _, [] => false
  | a :: p', b :: s' =>
      if Ascii.eqb (lower a) (lower b) then isPrefix p' s' else false
  end.

Fixpoint occurs (p s : list ascii) : bool :=
  isPrefix p s ||
  match s with
  | [] => false
  | _ :: s' => occurs p s'
  end.

Definition compile (pattern flags : string) : option (list ascii) :=
  let p := list_ascii_of_string pattern in
  if forallb isWordChar p then Some p else None.

Definition test (regex : list ascii) (s : string) : bool :=
  occurs regex (list_ascii_of_string s).

End Words.

(** A cache to run the matching on. *)
Definition demoCache : list TestResult :=
  [ {| testFilePath := "sum.test.js";
       testResults := [ {| title := "adds numbers" |};
                        {| title := "subtracts numbers" |} ] |} ].

End TestNamePatternPrompt.

(** ** Values and objects *)

(** The values that appear as arguments and as object fields.  [VObject l]
    is a reference to the object stored at [l]. *)
Inductive Value :=
  | VUndefined
  | VNull
  | VBool (b : bool)
  | VNumber (n : Z)
  | VString (s : string)
  | VObject (l : nat).

(** An object is a finite map from property names to values; the store
    maps references to objects. *)
Abbreviation Obj := (gmap string Value).
Abbreviation Heap := (gmap nat Obj).

(** ** ReporterDispatcher *)

Module ReporterDispatcher.

Inductive Method :=
  | onTestFileResult_
  | onTestResult_
  | onTestFileStart_
  | onTestStart_.

(** One invocation of a reporter's method: the position of the reporter
    in [_reporters], the method and the arguments. *)
Record Call := {
  callee : nat;
  method : Method;
  arguments : list Value
}.

(** A reporter method is arbitrary code: from the arguments and the
    store it leaves a store and settles, fulfilled ([None]) or rejected
    with an error. *)
Definition Hook := list Value → Heap → Heap * option JsError.

(** The optional methods of a reporter that the two file-level events
    look at.  A reporter's set of methods is fixed during a dispatch. *)
Module Reporter.
Record t := {
  onTestFileResult : option Hook;
  onTestResult : option Hook;
  onTestFileStart : option Hook;
  onTestStart : option Hook
}.
End Reporter.

Record Dispatcher := { _reporters : list Reporter.t }.

Definition constructor : Dispatcher := {| _reporters := [] |}.

Definition register (reporter : Reporter.t) (this : Dispatcher) : Dispatcher :=
  {| _reporters := _reporters this ++ [reporter] |}.

(** An asynchronous method body: it runs on a store, makes calls, and
    leaves a store and a completion.  The calls are recorded oldest
    first. *)
Definition Async (T : Type) := Heap → list Call * Heap * Completion T.

Definition ret {T} (a : T) : Async T := λ h, ([], h, Return a).

Definition bind {T U} (m : Async T) (k : T → Async U) : Async U :=
  λ h,
    match m h with
    | (c1, h1, Return a) =>
        match k a h1 with
        | (c2, h2, r) => (c1 ++ c2, h2, r)
        end
    | (c1, h1, Throw e) => (c1, h1, Throw e)
    end.

Notation "m ;; k" := (bind m (λ _, k))
  (at level 100, k at level 200, right associativity).

(** [await reporter.method(args)] for the reporter at position [i]. *)
Definition await (i : nat) (m : Method) (f : Hook) (args : list Value)
    : Async unit :=
  λ h,
    match f args h with
    | (h', None) =>
        ([{| callee := i; method := m; arguments := args |}], h', Return ())
    | (h', Some e) =>
        ([{| callee := i; method := m; arguments := args |}], h', Throw e)
    end.

(** [object.field = v] for the object stored at [l]. *)
Definition assign (l : nat) (field : string) (v : Value) : Async unit :=
  λ h, ([], alter (λ o : Obj, <[field := v]> o) l h, Return ()).

(** [for (const reporter of reporters) body], counting positions from [i]. *)
Fixpoint for_of (body : nat → Reporter.t → Async unit) (i : nat)
    (reporters : list Reporter.t) : Async unit :=
  match reporters with
  | [] => ret ()
  | reporter :: rest => body i reporter ;; for_of body (S i) rest
  end.

(** The body of the loop of [onTestFileResult], for the reporter at
    position [i]. *)
Definition fileResultBody (test : Value) (testResult : nat) (results : Value)
    (i : nat) (reporter : Reporter.t) : Async unit :=
  match Reporter.onTestFileResult reporter with
  | Some f => await i onTestFileResult_ f [test; VObject testResult; results]
  | None =>
      match Reporter.onTestResult reporter with
      | Some g => await i onTestResult_ g [test; VObject testResult; results]
      | None => ret ()
      end
  end.

Definition onTestFileResult (this : Dispatcher)
    (test : Value) (testResult : nat) (results : Value) : Async unit :=
  for_of (fileResultBody test testResult results) 0 (_reporters this) ;;
  assign testResult "sourceMaps" VUndefined ;;
  assign testResult "coverage" VUndefined ;;
  assign testResult "console" VUndefined.

(** The body of the loop of [onTestFileStart]. *)
Definition fileStartBody (test : Value) (i : nat) (reporter : Reporter.t)
    : Async unit :=
  match Reporter.onTestFileStart reporter with
  | Some f => await i onTestFileStart_ f [test]
  | None =>
      match Reporter.onTestStart reporter with
      | Some g => await i onTestStart_ g [test]
      | None => ret ()
      end
  end.

Definition onTestFileStart (this : Dispatcher) (test : Value) : Async unit :=
  for_of (fileStartBody test) 0 (_reporters this).

(** The calls that the description of the two events asks for: for each
    reporter in turn, the preferred method if the reporter has it, else
    the legacy one if it has that, else nothing. *)
Fixpoint fallbackCalls (preferred legacy : Method)
    (hasPreferred hasLegacy : Reporter.t → bool) (args : list Value)
    (i : nat) (reporters : list Reporter.t) : list Call :=
  match reporters with
  | [] => []
  | r :: rest =>
      (if hasPreferred r
       then [{| callee := i; method := preferred; arguments := args |}]
       else if hasLegacy r
       then [{| callee := i; method := legacy; arguments := args |}]
       else [])
      ++ fallbackCalls preferred legacy hasPreferred hasLegacy args (S i) rest
  end.

Definition present (f : option Hook) : bool :=
  match f with Some _ => true | None => false end.

(** A loop body that calls the preferred method, else the legacy one. *)
Definition fallbackBody (preferred legacy : Method)
    (getPreferred getLegacy : Reporter.t → option Hook) (args : list Value)
    (i : nat) (reporter : Reporter.t) : Async unit :=
  match getPreferred reporter with
  | Some f => await i preferred f args
  | None =>
      match getLegacy reporter with
      | Some g => await i legacy g args
      | None => ret ()
      end
  end.

(** The three payload fields cleared after a file result. *)
Definition release (o : Obj) : Obj :=
  <["console" := VUndefined]>
    (<["coverage" := VUndefined]> (<["sourceMaps" := VUndefined]> o)).

(** A store, a reporter with the legacy method only, and one with both,
    to run the dispatcher on. *)
Module Demo.
Definition testResult : Obj :=
  {[ "sourceMaps" := VObject 7; "coverage" := VObject 8;
     "console" := VNull; "numFailingTests" := VNumber 0 ]}.

Definition store : Heap := {[ 0 := testResult ]}.

(** A method that marks its last argument but one as seen. *)
Definition mark (name : string) : Hook :=
  λ args h,
    match args with
    | [_; VObject l; _] =>
        (alter (λ o : Obj, <[name := VBool true]> o) l h, None)
    | _ => (h, None)
    end.

Definition legacyOnly : Reporter.t :=
  {| Reporter.onTestFileResult := None;
     Reporter.onTestResult := Some (mark "legacy");
     Reporter.onTestFileStart := None;
     Reporter.onTestStart := Some (mark "legacy") |}.

Definition both : Reporter.t :=
  {| Reporter.onTestFileResult := Some (mark "preferred");
     Reporter.onTestResult := Some (mark "legacy");
     Reporter.onTestFileStart := Some (mark "preferred");
     Reporter.onTestStart := Some (mark "legacy") |}.

Definition silent : Reporter.t :=
  {| Reporter.onTestFileResult := None;
     Reporter.onTestResult := None;
     Reporter.onTestFileStart := None;
     Reporter.onTestStart := None |}.

Definition dispatcher : Dispatcher :=
  register both (register silent (register legacyOnly constructor)).
End Demo.


End ReporterDispatcher.

(** ** The watch controller *)

Module Watch.

(** *** Collaborators that are not part of the sources *)

(** The key codes of [./constants], as the hexadecimal strings that
    [stdin] delivers. *)
Module KEYS.
Record t := {
  A : string;
  ARROW_DOWN : string;
  ARROW_LEFT : string;
  ARROW_RIGHT : string;
  ARROW_UP : string;
  BACKSPACE : string;
  CONTROL_C : string;
  CONTROL_D : string;
  ENTER : string;
  ESCAPE : string;
  O : string;
  P : string;
  Q : string;
  QUESTION_MARK : string;
  U : string
}.

Definition all (k : t) : list string :=
  [A k; ARROW_DOWN k; ARROW_LEFT k; ARROW_RIGHT k; ARROW_UP k;
   BACKSPACE k; CONTROL_C k; CONTROL_D k; ENTER k; ESCAPE k;
   O k; P k; Q k; QUESTION_MARK k; U k].

(** No two keys share a code. *)
Definition distinct (k : t) : Prop := NoDup (all k).
End KEYS.

Module ansiEscapes.
Record t := {
  cursorHide : string;
  cursorShow : string;
  clearScreen : string;
  eraseScreen : string
}.
End ansiEscapes.

Module chalk.
Record t := {
  bold : string → string;
  dim : string → string;
  red : string → string
}.
End chalk.

(** The fields of [argv] that the controller reads; [positional] is
    [argv._].  The three flags are kept by their truthiness. *)
Module Argv.
Record t := {
  watch : bool;
  watchAll : bool;
  noSCM : bool;
  positional : list (option string)
}.
End Argv.

Abbreviation Config := (gmap string Value).

Record SearchSource := {
  sourceContext : Value;
  sourceConfig : Config
}.

(** The cancellation token of a run, [./TestWatcher]. *)
Module TestWatcher.
(** Modelled from the spec: [./TestWatcher] is not among the sources.  The
    cancellation token is a "mutable flag [{interrupted: bool}]"; it also
    keeps the option it was built with. *)
Record t := {
  interrupted : bool;
  isWatchMode : bool
}.
(** Modelled from the spec: a token is created for a run that is yet to
    start, so a new token is not interrupted. *)
Definition new (isWatchMode : bool) : t :=
  {| interrupted := false; isWatchMode := isWatchMode |}.
(** Modelled from the spec: "sets the active run's cancellation token
    [interrupted = true]"; [setState] overwrites the flag. *)
Definition setState (interrupted : bool) (w : t) : t :=
  {| interrupted := interrupted; isWatchMode := isWatchMode w |}.
End TestWatcher.

(** What the controller reads of the results of a run:
    the truthiness of [results.snapshot.failure]. *)
Record Results := { snapshot_failure : bool }.

(** Everything else the controller calls without defining it. *)
Record Externals := {
  keys : KEYS.t;
  CLEAR : string;
  ansi : ansiEscapes.t;
  colors : chalk.t;
  (** [new RegExp(p, flags)] does not throw. *)
  RegExp_compiles : string → string → bool;
  (** [new Buffer(key, 'hex').toString()] *)
  hexToString : string → string;
  (** [setWatchMode(argv, mode, options)]; the last argument is
      [options.pattern], [None] when no options are passed. *)
  setWatchMode :
    Argv.t → string → option (list (option string)) → Argv.t;
  createHasteContext : Config → Value → Value → Value;
  (** [searchSource.findMatchingTests(pattern).paths] *)
  findMatchingTests : SearchSource → option string → list string;
  (** What [printTypeahead(config, pipe, pattern, paths)] writes. *)
  printTypeahead : Config → option string → list string → list string;
  (** What [preRunMessage.print(pipe)] writes. *)
  preRunMessage_print : list string;
  (** [process.env.JEST_HIDE_USAGE] *)
  JEST_HIDE_USAGE : option string
}.

(** *** The state *)

Inductive Settlement :=
  | Pending
  | Fulfilled
  | Rejected (error : JsError).

(** One invocation of [runJest]: the arguments the controller passed and
    the state of the promise it returned. *)
Record Run := {
  runContext : Value;
  runConfig : Config;
  runWatcher : option nat;
  settlement : Settlement
}.

Inductive Process :=
  | Alive
  | Exited (code : Z)
  | Crashed (error : JsError).

(** The variables that the closures of [watch] share, followed by the
    world they act on.  [testWatcher] refers to an element of
    [watchers]; a run refers to its token in the same way. *)
Record State := {
  config : Config;
  argv : Argv.t;
  hasteContext : Value;
  currentPattern : option string;
  hasSnapshotFailure : bool;
  isEnteringPattern : bool;
  isRunning : bool;
  testWatcher : option nat;
  displayHelp : bool;
  searchSource : SearchSource;
  (** every [TestWatcher] allocated so far *)
  watchers : list TestWatcher.t;
  (** what was written to [pipe], oldest first *)
  pipe : list string;
  (** what was written by [console.error], oldest first *)
  stderr : list string;
  (** every invocation of [runJest], oldest first *)
  runs : list Run;
  process : Process;
  (** [stdin.on('data', onKeypress)] was executed *)
  listening : bool
}.

Definition set_argv (x : Argv.t) (st : State) : State :=
  {| config := config st; argv := x; hasteContext := hasteContext st;
     currentPattern := currentPattern st;
     hasSnapshotFailure := hasSnapshotFailure st;
     isEnteringPattern := isEnteringPattern st; isRunning := isRunning st;
     testWatcher := testWatcher st; displayHelp := displayHelp st;
     searchSource := searchSource st; watchers := watchers st;
     pipe := pipe st; stderr := stderr st; runs := runs st;
     process := process st; listening := listening st |}.

Definition set_hasteContext (x : Value) (st : State) : State :=
  {| config := config st; argv := argv st; hasteContext := x;
     currentPattern := currentPattern st;
     hasSnapshotFailure := hasSnapshotFailure st;
     isEnteringPattern := isEnteringPattern st; isRunning := isRunning st;
     testWatcher := testWatcher st; displayHelp := displayHelp st;
     searchSource := searchSource st; watchers := watchers st;
     pipe := pipe st; stderr := stderr st; runs := runs st;
     process := process st; listening := listening st |}.

Definition set_currentPattern (x : option string) (st : State) : State :=
  {| config := config st; argv := argv st; hasteContext := hasteContext st;
     currentPattern := x;
     hasSnapshotFailure := hasSnapshotFailure st;
     isEnteringPattern := isEnteringPattern st; isRunning := isRunning st;
     testWatcher := testWatcher st; displayHelp := displayHelp st;
     searchSource := searchSource st; watchers := watchers st;
     pipe := pipe st; stderr := stderr st; runs := runs st;
     process := process st; listening := listening st |}.

Definition set_hasSnapshotFailure (x : bool) (st : State) : State :=
  {| config := config st; argv := argv st; hasteContext := hasteContext st;
     currentPattern := currentPattern st;
     hasSnapshotFailure := x;
     isEnteringPattern := isEnteringPattern st; isRunning := isRunning st;
     testWatcher := testWatcher st; displayHelp := displayHelp st;
     searchSource := searchSource st; watchers := watchers st;
     pipe := pipe st; stderr := stderr st; runs := runs st;
     process := process st; listening := listening st |}.

Definition set_isEnteringPattern (x : bool) (st : State) : State :=
  {| config := config st; argv := argv st; hasteContext := hasteContext st;
     currentPattern := currentPattern st;
     hasSnapshotFailure := hasSnapshotFailure st;
     isEnteringPattern := x; isRunning := isRunning st;
     testWatcher := testWatcher st; displayHelp := displayHelp st;
     searchSource := searchSource st; watchers := watchers st;
     pipe := pipe st; stderr := stderr st; runs := runs st;
     process := process st; listening := listening st |}.

Definition set_isRunning (x : bool) (st : State) : State :=
  {| config := config st; argv := argv st; hasteContext := hasteContext st;
     currentPattern := currentPattern st;
     hasSnapshotFailure := hasSnapshotFailure st;
     isEnteringPattern := isEnteringPattern st; isRunning := x;
     testWatcher := testWatcher st; displayHelp := displayHelp st;
     searchSource := searchSource st; watchers := watchers st;
     pipe := pipe st; stderr := stderr st; runs := runs st;
     process := process st; listening := listening st |}.

Definition set_testWatcher (x : option nat) (st : State) : State :=
  {| config := config st; argv := argv st; hasteContext := hasteContext st;
     currentPattern := currentPattern st;
     hasSnapshotFailure := hasSnapshotFailure st;
     isEnteringPattern := isEnteringPattern st; isRunning := isRunning st;
     testWatcher := x; displayHelp := displayHelp st;
     searchSource := searchSource st; watchers := watchers st;
     pipe := pipe st; stderr := stderr st; runs := runs st;
     process := process st; listening := listening st |}.

Definition set_displayHelp (x : bool) (st : State) : State :=
  {| config := config st; argv := argv st; hasteContext := hasteContext st;
     currentPattern := currentPattern st;
     hasSnapshotFailure := hasSnapshotFailure st;
     isEnteringPattern := isEnteringPattern st; isRunning := isRunning st;
     testWatcher := testWatcher st; displayHelp := x;
     searchSource := searchSource st; watchers := watchers st;
     pipe := pipe st; stderr := stderr st; runs := runs st;
     process := process st; listening := listening st |}.

Definition set_searchSource (x : SearchSource) (st : State) : State :=
  {| config := config st; argv := argv st; hasteContext := hasteContext st;
     currentPattern := currentPattern st;
     hasSnapshotFailure := hasSnapshotFailure st;
     isEnteringPattern := isEnteringPattern st; isRunning := isRunning st;
     testWatcher := testWatcher st; displayHelp := displayHelp st;
     searchSource := x; watchers := watchers st;
     pipe := pipe st; stderr := stderr st; runs := runs st;
     process := process st; listening := listening st |}.

Definition set_watchers (x : list TestWatcher.t) (st : State) : State :=
  {| config := config st; argv := argv st; hasteContext := hasteContext st;
     currentPattern := currentPattern st;
     hasSnapshotFailure := hasSnapshotFailure st;
     isEnteringPattern := isEnteringPattern st; isRunning := isRunning st;
     testWatcher := testWatcher st; displayHelp := displayHelp st;
     searchSource := searchSource st; watchers := x;
     pipe := pipe st; stderr := stderr st; runs := runs st;
     process := process st; listening := listening st |}.

Definition set_pipe (x : list string) (st : State) : State :=
  {| config := config st; argv := argv st; hasteContext := hasteContext st;
     currentPattern := currentPattern st;
     hasSnapshotFailure := hasSnapshotFailure st;
     isEnteringPattern := isEnteringPattern st; isRunning := isRunning st;
     testWatcher := testWatcher st; displayHelp := displayHelp st;
     searchSource := searchSource st; watchers := watchers st;
     pipe := x; stderr := stderr st; runs := runs st;
     process := process st; listening := listening st |}.

Definition set_stderr (x : list string) (st : State) : State :=
  {| config := config st; argv := argv st; hasteContext := hasteContext st;
     currentPattern := currentPattern st;
     hasSnapshotFailure := hasSnapshotFailure st;
     isEnteringPattern := isEnteringPattern st; isRunning := isRunning st;
     testWatcher := testWatcher st; displayHelp := displayHelp st;
     searchSource := searchSource st; watchers := watchers st;
     pipe := pipe st; stderr := x; runs := runs st;
     process := process st; listening := listening st |}.

Definition set_runs (x : list Run) (st : State) : State :=
  {| config := config st; argv := argv st; hasteContext := hasteContext st;
     currentPattern := currentPattern st;
     hasSnapshotFailure := hasSnapshotFailure st;
     isEnteringPattern := isEnteringPattern st; isRunning := isRunning st;
     testWatcher := testWatcher st; displayHelp := displayHelp st;
     searchSource := searchSource st; watchers := watchers st;
     pipe := pipe st; stderr := stderr st; runs := x;
     process := process st; listening := listening st |}.

Definition set_process (x : Process) (st : State) : State :=
  {| config := config st; argv := argv st; hasteContext := hasteContext st;
     currentPattern := currentPattern st;
     hasSnapshotFailure := hasSnapshotFailure st;
     isEnteringPattern := isEnteringPattern st; isRunning := isRunning st;
     testWatcher := testWatcher st; displayHelp := displayHelp st;
     searchSource := searchSource st; watchers := watchers st;
     pipe := pipe st; stderr := stderr st; runs := runs st;
     process := x; listening := listening st |}.

(** *** Primitive effects *)

Definition pipe_write (s : string) (st : State) : State :=
  set_pipe (pipe st ++ [s]) st.

Definition pipe_write_all (l : list string) (st : State) : State :=
  set_pipe (pipe st ++ l) st.

Definition console_error (s : string) (st : State) : State :=
  set_stderr (stderr st ++ [s]) st.

Definition process_exit (code : Z) (st : State) : State :=
  set_process (Exited code) st.

(** An exception that no handler catches ends the process. *)
Definition uncaught (e : JsError) (st : State) : State :=
  set_process (Crashed e) st.

(** [testWatcher = new TestWatcher({isWatchMode: true})] *)
Definition new_TestWatcher (st : State) : State :=
  let w := length (watchers st) in
  let st := set_watchers (watchers st ++ [TestWatcher.new true]) st in
  set_testWatcher (Some w) st.

(** [w.setState({interrupted: true})] for the token that [w] refers to. *)
Definition TestWatcher_setState (w : nat) (interrupted : bool) (st : State)
    : State :=
  set_watchers (alter (TestWatcher.setState interrupted) w (watchers st)) st.

(** Modelled from the spec: [./runJest] is not among the sources.
    "RunCoordinator contract: run(context, mergedConfig, argv, outputSink,
    cancellationToken) → eventual {results}": the call starts a run and
    returns a promise that is pending; the run settles later, see
    [Event].  The result is the position of the run in [runs]. *)
Definition runJest (context : Value) (mergedConfig : Config)
    (watcher : option nat) (st : State) : State * nat :=
  (set_runs (runs st ++ [ {| runContext := context;
                             runConfig := mergedConfig;
                             runWatcher := watcher;
                             settlement := Pending |} ]) st,
   length (runs st)).

Definition settle (i : nat) (s : Settlement) (st : State) : State :=
  set_runs (alter (λ r, {| runContext := runContext r;
                           runConfig := runConfig r;
                           runWatcher := runWatcher r;
                           settlement := s |}) i (runs st)) st.

Definition pending (r : Run) : bool :=
  match settlement r with Pending => true | _ => false end.

(** The runs that were started and have not settled. *)
Definition activeRuns (st : State) : list Run :=
  List.filter pending (runs st).

(** *** JavaScript helpers *)

Definition stack (e : JsError) : string :=
  match e with
  | TypeError m => "TypeError: " +:+ m
  | SyntaxError m => "SyntaxError: " +:+ m
  | OtherError s => s
  end.

(** [!!s] for a string that may be absent. *)
Definition truthy (s : option string) : bool :=
  match s with
  | Some s => negb (s =? "")%string
  | None => false
  end.

(** [!!w] for a variable that holds an object or [undefined]. *)
Definition defined {T} (w : option T) : bool :=
  match w with Some _ => true | None => false end.

(** An array is truthy, whatever it holds. *)
Definition truthy_array {T} (l : list T) : bool := true.

(** [l.indexOf(x)] *)
Fixpoint indexOf (l : list string) (x : string) : Z :=
  match l with
  | [] => -1
  | y :: l' =>
      if (x =? y)%string then 0
      else let i := indexOf l' x in
           if (i =? -1)%Z then -1 else (i + 1)%Z
  end.

(** [s.slice(0, -1)] *)
Definition slice_0_m1 (s : string) : string :=
  substring 0 (String.length s - 1) s.

(** [l[0]] for an array of strings that may hold [undefined]. *)
Definition first (l : list (option string)) : option string :=
  match l with
  | [] => None
  | x :: _ => x
  end.

(** The source text of [new RegExp(p)]: an absent pattern reads as the
    empty group. *)
Definition patternSource (p : option string) : string :=
  match p with
  | Some s => s
  | None => "(?:)"
  end.

(** The text [p + char] when [p] may be [undefined]. *)
Definition toText (p : option string) : string :=
  match p with
  | Some s => s
  | None => "undefined"
  end.

(** *** usage *)

Definition usage (c : chalk.t) (argv : Argv.t) (snapshotFailure : bool)
    (delimiter : string) : string :=
  let messages : list (option string) :=
    [ Some (nl +:+ chalk.bold c "Watch Usage");
      if Argv.watch argv
      then Some (chalk.dim c " › Press " +:+ "a"
                 +:+ chalk.dim c " to run all tests.")
      else None;
      if (Argv.watchAll argv || truthy_array (Argv.positional argv))
         && negb (Argv.noSCM argv)
      then Some (chalk.dim c " › Press " +:+ "o"
                 +:+ chalk.dim c " to only run tests related to changed files.")
      else None;
      if snapshotFailure
      then Some (chalk.dim c " › Press " +:+ "u"
                 +:+ chalk.dim c " to update failing snapshots.")
      else None;
      Some (chalk.dim c " › Press " +:+ "p"
            +:+ chalk.dim c " to filter by a filename regex pattern.");
      Some (chalk.dim c " › Press " +:+ "q"
            +:+ chalk.dim c " to quit watch mode.");
      Some (chalk.dim c " › Press " +:+ "Enter"
            +:+ chalk.dim c " to trigger a test run.") ] in
  String.concat delimiter
    (omap (λ message, if truthy message then message else None) messages)
  +:+ nl.

(** *** watch and its closures *)

Section Controller.
Variable X : Externals.

Definition writeCurrentPattern (st : State) : State :=
  let regex := RegExp_compiles X (patternSource (currentPattern st)) "i" in
  let paths :=
    if regex
    then findMatchingTests X (searchSource st) (currentPattern st)
    else [] in
  let st := pipe_write (ansiEscapes.cursorHide (ansi X)) st in
  let st := pipe_write (ansiEscapes.clearScreen (ansi X)) st in
  let st := pipe_write
    (nl +:+ chalk.bold (colors X) "Pattern Mode Usage" +:+ nl) st in
  let st := pipe_write
    (chalk.dim (colors X) " › Press " +:+ "ESC"
     +:+ chalk.dim (colors X) " exit pattern mode." +:+ nl +:+ nl) st in
  let st := pipe_write_all
    (printTypeahead X (config st) (currentPattern st) paths) st in
  pipe_write (ansiEscapes.cursorShow (ansi X)) st.

(** The callback handed to [runJest]. *)
Definition onComplete (results : Results) (st : State) : State :=
  let st := set_isRunning false st in
  let st := set_hasSnapshotFailure (snapshot_failure results) st in
  let st := new_TestWatcher st in
  if displayHelp st
  then
    let st := pipe_write
      (usage (colors X) (argv st) (hasSnapshotFailure st) nl) st in
    set_displayHelp (negb (truthy (JEST_HIDE_USAGE X))) st
  else st.

(** The two handlers of [.then]. *)
Definition onFulfilled (st : State) : State := st.

Definition onRejected (error : JsError) (st : State) : State :=
  console_error (chalk.red (colors X) (stack error)) st.

(** [startRun(overrideConfig)]; the result is [None] for [null] and
    the run whose promise is returned otherwise. *)
Definition startRun (overrideConfig : Config) (st : State)
    : State * option nat :=
  if isRunning st then (st, None)
  else
    let st := new_TestWatcher st in
    let st := pipe_write (CLEAR X) st in
    let st := pipe_write_all (preRunMessage_print X) st in
    let st := set_isRunning true st in
    match runJest (hasteContext st) (overrideConfig ∪ config st)
                  (testWatcher st) st with
    | (st, run) => (st, Some run)
    end.

(** The listener of the haste map's 'change' event. *)
Definition onChange (hasteFS moduleMap : Value) (st : State) : State :=
  let st := set_hasteContext
    (createHasteContext X (config st) hasteFS moduleMap) st in
  let st := set_currentPattern (Some "") st in
  let st := set_isEnteringPattern false st in
  let st := set_searchSource
    {| sourceContext := hasteContext st; sourceConfig := config st |} st in
  (startRun ∅ st).1.

Definition onKeypress (key : string) (st : State) : State :=
  let K := keys X in
  if (key =? KEYS.CONTROL_C K)%string || (key =? KEYS.CONTROL_D K)%string
  then process_exit 0 st
  else if isEnteringPattern st then
    if (key =? KEYS.ENTER K)%string then
      let st := set_isEnteringPattern false st in
      let st := set_argv
        (setWatchMode X (argv st) "watch" (Some [currentPattern st])) st in
      (startRun ∅ st).1
    else if (key =? KEYS.ESCAPE K)%string then
      let st := set_isEnteringPattern false st in
      let st := pipe_write (ansiEscapes.cursorHide (ansi X)) st in
      let st := pipe_write (ansiEscapes.clearScreen (ansi X)) st in
      let st := pipe_write
        (usage (colors X) (argv st) (hasSnapshotFailure st) nl) st in
      let st := pipe_write (ansiEscapes.cursorShow (ansi X)) st in
      set_currentPattern (first (Argv.positional (argv st))) st
    else if (key =? KEYS.ARROW_DOWN K)%string
            || (key =? KEYS.ARROW_LEFT K)%string
            || (key =? KEYS.ARROW_RIGHT K)%string
            || (key =? KEYS.ARROW_UP K)%string then
      st
    else
      let char := hexToString X key in
      if (key =? KEYS.BACKSPACE K)%string then
        match currentPattern st with
        | Some s =>
            writeCurrentPattern (set_currentPattern (Some (slice_0_m1 s)) st)
        | None =>
            uncaught (TypeError "Cannot read property 'slice' of undefined") st
        end
      else
        writeCurrentPattern
          (set_currentPattern (Some (toText (currentPattern st) +:+ char)) st)
  else if isRunning st
          && defined (testWatcher st)
          && negb (indexOf [KEYS.Q K; KEYS.ENTER K; KEYS.A K;
                            KEYS.O K; KEYS.P K] key =? -1)%Z
  then
    match testWatcher st with
    | Some w => TestWatcher_setState w true st
    | None => st
    end
  else if (key =? KEYS.Q K)%string then process_exit 0 st
  else if (key =? KEYS.ENTER K)%string then (startRun ∅ st).1
  else if (key =? KEYS.U K)%string then
    (startRun {[ "updateSnapshot" := VBool true ]} st).1
  else if (key =? KEYS.A K)%string then
    let st := set_argv (setWatchMode X (argv st) "watchAll" None) st in
    (startRun ∅ st).1
  else if (key =? KEYS.O K)%string then
    let st := set_argv (setWatchMode X (argv st) "watch" None) st in
    (startRun ∅ st).1
  else if (key =? KEYS.P K)%string then
    let st := set_isEnteringPattern true st in
    let st := set_currentPattern (Some "") st in
    let st := pipe_write (ansiEscapes.eraseScreen (ansi X)) st in
    writeCurrentPattern st
  else if (key =? KEYS.QUESTION_MARK K)%string then
    if truthy (JEST_HIDE_USAGE X)
    then pipe_write
           (usage (colors X) (argv st) (hasSnapshotFailure st) nl) st
    else st
  else st.

(** [watch(config, pipe, argv, hasteMap, hasteContext, stdin)]: the
    state when the call returns.  [raw] tells whether [stdin] has a
    [setRawMode], that is, whether the key listener is installed. *)
Definition watch (config : Config) (argv : Argv.t) (hasteContext : Value)
    (raw : bool) : State :=
  let argv :=
    setWatchMode X argv (if Argv.watch argv then "watch" else "watchAll")
      (Some (Argv.positional argv)) in
  let st :=
    {| config := config; argv := argv; hasteContext := hasteContext;
       currentPattern := Some "";
       hasSnapshotFailure := false;
       isEnteringPattern := false;
       isRunning := false;
       testWatcher := None;
       displayHelp := true;
       searchSource := {| sourceContext := hasteContext;
                          sourceConfig := config |};
       watchers := []; pipe := []; stderr := []; runs := [];
       process := Alive; listening := raw |} in
  (startRun ∅ st).1.

(** *** The event loop *)

(** What can happen after [watch] has returned: a key arrives on
    [stdin], the haste map reports a change, or a run settles.  A run
    that succeeds passes its results to the completion callback and
    then fulfils its promise; a run that fails rejects its promise
    without calling back. *)
Inductive Event :=
  | Keypress (key : string)
  | Change (hasteFS moduleMap : Value)
  | Succeed (run : nat) (results : Results)
  | Fail (run : nat) (error : JsError).

Definition isPending (i : nat) (st : State) : bool :=
  match runs st !! i with
  | Some r => pending r
  | None => false
  end.

Definition step (st : State) (ev : Event) : State :=
  match process st with
  | Alive =>
      match ev with
      | Keypress key => if listening st then onKeypress key st else st
      | Change hasteFS moduleMap => onChange hasteFS moduleMap st
      | Succeed i results =>
          if isPending i st
          then onFulfilled (settle i Fulfilled (onComplete results st))
          else st
      | Fail i error =>
          if isPending i st
          then onRejected error (settle i (Rejected error) st)
          else st
      end
  | _ => st
  end.

Definition steps (st : State) (evs : list Event) : State :=
  foldl step st evs.

End Controller.

(** *** Reachable states and their invariant *)

(** A state of the controller at some point of a session. *)
Definition reachable (X : Externals) (st : State) : Prop :=
  ∃ config argv hasteContext raw evs,
    st = steps X (watch X config argv hasteContext raw) evs.

(** While the running flag is set the token variable refers to an
    allocated token; at most one run has not settled, and when there is
    such a run the flag is set and the token variable refers to the
    token of that run. *)
Definition consistent (st : State) : Prop :=
  (isRunning st = true →
   ∃ w, testWatcher st = Some w ∧ w < length (watchers st))
  ∧ match activeRuns st with
    | [] => True
    | [r] => isRunning st = true ∧ runWatcher r = testWatcher st
    | _ :: _ :: _ => False
    end.

(** The running flag is set although no run is left to clear it. *)
Definition wedged (st : State) : Prop :=
  isRunning st = true ∧ activeRuns st = [].

(** *** An instance of the collaborators

    The key codes of a POSIX terminal, a terminal without colours, the
    word patterns of [TestNamePatternPrompt.Words] as the regular
    expressions, and a [setWatchMode] that sets the two mode flags and
    stores the pattern it is given. *)
Module Demo.

Definition keys : KEYS.t :=
  {| KEYS.A := "61";
     KEYS.ARROW_DOWN := "1b5b42";
     KEYS.ARROW_LEFT := "1b5b44";
     KEYS.ARROW_RIGHT := "1b5b43";
     KEYS.ARROW_UP := "1b5b41";
     KEYS.BACKSPACE := "7f";
     KEYS.CONTROL_C := "03";
     KEYS.CONTROL_D := "04";
     KEYS.ENTER := "0d";
     KEYS.ESCAPE := "1b";
     KEYS.O := "6f";
     KEYS.P := "70";
     KEYS.Q := "71";
     KEYS.QUESTION_MARK := "3f";
     KEYS.U := "75" |}.

Definition hexDigit (c : ascii) : option nat :=
  let n := nat_of_ascii c in
  if (48 <=? n)%nat && (n <=? 57)%nat then Some (n - 48)
  else if (97 <=? n)%nat && (n <=? 102)%nat then Some (n - 87)
  else None.

Fixpoint hexToString (s : string) : string :=
  match s with
  | String a (String b rest) =>
      match hexDigit a, hexDigit b with
      | Some x, Some y =>
          String (ascii_of_nat (16 * x + y)) (hexToString rest)
      | _, _ => EmptyString
      end
  | _ => EmptyString
  end.

Definition setWatchMode (argv : Argv.t) (mode : string)
    (pattern : option (list (option string))) : Argv.t :=
  {| Argv.watch :=
       if (mode =? "watch")%string then true
       else if (mode =? "watchAll")%string then false
       else Argv.watch argv;
     Argv.watchAll :=
       if (mode =? "watch")%string then false
       else if (mode =? "watchAll")%string then true
       else Argv.watchAll argv;
     Argv.noSCM := Argv.noSCM argv;
     Argv.positional :=
       match pattern with
       | Some p => p
       | None => Argv.positional argv
       end |}.

Definition externals : Externals :=
  {| Watch.keys := keys;
     CLEAR := "<clear>";
     ansi := {| ansiEscapes.cursorHide := "<hide>";
                ansiEscapes.cursorShow := "<show>";
                ansiEscapes.clearScreen := "<clearScreen>";
                ansiEscapes.eraseScreen := "<eraseScreen>" |};
     colors := {| chalk.bold := id; chalk.dim := id; chalk.red := id |};
     RegExp_compiles := λ p flags,
       match TestNamePatternPrompt.Words.compile p flags with
       | Some _ => true
       | None => false
       end;
     Watch.hexToString := hexToString;
     Watch.setWatchMode := setWatchMode;
     createHasteContext := λ _ hasteFS _, hasteFS;
     findMatchingTests := λ _ _, [];
     printTypeahead := λ _ p _, [toText p];
     preRunMessage_print := ["<pre-run>"%string];
     JEST_HIDE_USAGE := None |}.

Definition argv : Argv.t :=
  {| Argv.watch := true; Argv.watchAll := false; Argv.noSCM := false;
     Argv.positional := [Some "sum"%string] |}.

(** The state when [watch] returns: the first run is active. *)
Definition started : State := watch externals ∅ argv (VObject 0) true.

(** A session in which the pattern "a" is committed, pattern mode is
    entered again and "bc" is typed. *)
Definition editing : State :=
  steps externals started
    [ Succeed 0 {| snapshot_failure := false |};
      Keypress "70"; Keypress "61"; Keypress "0d";
      Succeed 1 {| snapshot_failure := false |};
      Keypress "70"; Keypress "62"; Keypress "63" ].

End Demo.

End Watch.

(** ** Further invariants of the watch controller *)

Module Session.
Import Watch.

(** In pattern mode no run is going on and the edit buffer is a string. *)
Definition editable (st : State) : Prop :=
  isEnteringPattern st = true →
  isRunning st = false ∧ is_Some (currentPattern st).

(** The process is alive or has left through [process.exit(0)]. *)
Definition healthy (st : State) : Prop :=
  process st = Alive ∨ process st = Exited 0.

(** Every run was given a token that is allocated, and no two runs were
    given the same token. *)
Definition tokensApart (st : State) : Prop :=
  NoDup (runWatcher <$> runs st)
  ∧ ∀ r, r ∈ runs st →
      ∃ w, runWatcher r = Some w ∧ w < length (watchers st).

Definition fulfilled (r : Run) : bool :=
  match settlement r with Fulfilled => true | _ => false end.

(** Some run has completed, that is, the completion callback has run. *)
Definition completedOnce (st : State) : bool := existsb fulfilled (runs st).

(** The usage banner is due after a run as long as no run has completed
    or [JEST_HIDE_USAGE] is not set. *)
Definition bannerRule (X : Externals) (st : State) : Prop :=
  displayHelp st
  = if completedOnce st then negb (truthy (JEST_HIDE_USAGE X)) else true.

Definition sound (st : State) : Prop :=
  consistent st ∧ editable st ∧ healthy st ∧ tokensApart st.

(** The state of the demonstration session after its first run has
    completed. *)
Definition idle : State :=
  steps Demo.externals Demo.started
    [Succeed 0 {| snapshot_failure := true |}].


End Session.

(** ** ReporterDispatcher: the remaining methods *)

Module ReporterLifecycle.
Import ReporterDispatcher.

(** The events that have one method and no legacy name. *)
Inductive Event :=
  | onRunStart_
  | onTestCaseResult_
  | onRunComplete_.

(** One delivery of such an event: the position of the reporter in
    [_reporters], the event and the arguments. *)
Record Notice := {
  receiver : nat;
  event : Event;
  payload : list Value
}.

(** [reporter.getLastError()]: it runs on a store, leaves a store, and
    returns an error or a falsy value ([None]), unless it throws. *)
Definition Getter := Heap → Heap * Completion (option JsError).

(** A reporter with all its optional methods: those of the file-level
    events, those of the other events, and [getLastError].  [classes]
    lists the constructors whose prototype is on the prototype chain of
    the reporter, which is what [instanceof] looks at. *)
Module Reporter.
Record t := {
  fileMethods : ReporterDispatcher.Reporter.t;
  onRunStart : option Hook;
  onTestCaseResult : option Hook;
  onRunComplete : option Hook;
  getLastError : option Getter;
  classes : list nat
}.
End Reporter.

Record Dispatcher := { _reporters : list Reporter.t }.

Definition constructor : Dispatcher := {| _reporters := [] |}.

Definition register (reporter : Reporter.t) (this : Dispatcher) : Dispatcher :=
  {| _reporters := _reporters this ++ [reporter] |}.

(** [reporter instanceof ReporterClass] *)
Definition instanceof (reporter : Reporter.t) (ReporterClass : nat) : bool :=
  bool_decide (ReporterClass ∈ Reporter.classes reporter).

Definition unregister (ReporterClass : nat) (this : Dispatcher) : Dispatcher :=
  {| _reporters :=
       List.filter (λ reporter, negb (instanceof reporter ReporterClass))
         (_reporters this) |}.

(** The dispatcher of the file-level events that holds the same reporters. *)
Definition fileEvents (this : Dispatcher) : ReporterDispatcher.Dispatcher :=
  {| ReporterDispatcher._reporters := Reporter.fileMethods <$> _reporters this |}.

(** An asynchronous method body that records the deliveries it makes,
    oldest first. *)
Definition Task (T : Type) := Heap → list Notice * Heap * Completion T.

Definition ret {T} (a : T) : Task T := λ h, ([], h, Return a).

Definition bind {T U} (m : Task T) (k : T → Task U) : Task U :=
  λ h,
    match m h with
    | (n1, h1, Return a) =>
        match k a h1 with
        | (n2, h2, r) => (n1 ++ n2, h2, r)
        end
    | (n1, h1, Throw e) => (n1, h1, Throw e)
    end.

(** [reporter.method && (await reporter.method(args))] for the reporter
    at position [i]. *)
Definition notify (i : nat) (ev : Event) (method : option Hook)
    (args : list Value) : Task unit :=
  λ h,
    match method with
    | None => ([], h, Return ())
    | Some f =>
        match f args h with
        | (h', None) =>
            ([{| receiver := i; event := ev; payload := args |}], h',
             Return ())
        | (h', Some e) =>
            ([{| receiver := i; event := ev; payload := args |}], h',
             Throw e)
        end
    end.

(** [for (const reporter of reporters) body], counting positions from [i]. *)
Fixpoint for_of (body : nat → Reporter.t → Task unit) (i : nat)
    (reporters : list Reporter.t) : Task unit :=
  match reporters with
  | [] => ret ()
  | reporter :: rest => bind (body i reporter) (λ _, for_of body (S i) rest)
  end.

Definition onRunStart (this : Dispatcher) (results options : Value)
    : Task unit :=
  for_of (λ i reporter,
            notify i onRunStart_ (Reporter.onRunStart reporter)
              [results; options])
    0 (_reporters this).

Definition onTestCaseResult (this : Dispatcher)
    (test testCase testCaseResult : Value) : Task unit :=
  for_of (λ i reporter,
            notify i onTestCaseResult_ (Reporter.onTestCaseResult reporter)
              [test; testCase; testCaseResult])
    0 (_reporters this).

Definition onRunComplete (this : Dispatcher) (contexts results : Value)
    : Task unit :=
  for_of (λ i reporter,
            notify i onRunComplete_ (Reporter.onRunComplete reporter)
              [contexts; results])
    0 (_reporters this).

(** The shape that the three methods above share. *)
Definition dispatch (ev : Event) (method : Reporter.t → option Hook)
    (args : list Value) (this : Dispatcher) : Task unit :=
  for_of (λ i reporter, notify i ev (method reporter) args)
    0 (_reporters this).

(** The callback of [reduce] in [getErrors], on the list so far (the
    source calls it [list]) and the store. *)
Definition collect (errors : list JsError) (reporter : Reporter.t) (h : Heap)
    : Heap * Completion (list JsError) :=
  match Reporter.getLastError reporter with
  | None => (h, Return errors)
  | Some getLastError =>
      match getLastError h with
      | (h', Return (Some error)) => (h', Return (errors ++ [error]))
      | (h', Return None) => (h', Return errors)
      | (h', Throw e) => (h', Throw e)
      end
  end.

(** [reporters.reduce(collect, list)] *)
Fixpoint reduce (reporters : list Reporter.t) (errors : list JsError)
    (h : Heap) : Heap * Completion (list JsError) :=
  match reporters with
  | [] => (h, Return errors)
  | reporter :: rest =>
      match collect errors reporter h with
      | (h', Return errors') => reduce rest errors' h'
      | (h', Throw e) => (h', Throw e)
      end
  end.

Definition getErrors (this : Dispatcher) (h : Heap)
    : Heap * Completion (list JsError) :=
  reduce (_reporters this) [] h.

Definition hasErrors (this : Dispatcher) (h : Heap) : Heap * Completion bool :=
  match getErrors this h with
  | (h', Return errors) => (h', Return (negb (length errors =? 0)%nat))
  | (h', Throw e) => (h', Throw e)
  end.

(** The deliveries that one event asks for: one to each reporter that has
    the method, in registration order. *)
Fixpoint deliveries (ev : Event) (method : Reporter.t → option Hook)
    (args : list Value) (i : nat) (reporters : list Reporter.t)
    : list Notice :=
  match reporters with
  | [] => []
  | r :: rest =>
      (if present (method r)
       then [{| receiver := i; event := ev; payload := args |}]
       else [])
      ++ deliveries ev method args (S i) rest
  end.

(** What a getter returns on a store on which it neither writes nor
    throws. *)
Definition lastError (h : Heap) (reporter : Reporter.t) : option JsError :=
  match Reporter.getLastError reporter with
  | None => None
  | Some getLastError =>
      match getLastError h with
      | (_, Return error) => error
      | (_, Throw _) => None
      end
  end.

(** The getter of the reporter leaves the store [h] as it is and does
    not throw. *)
Definition quiet (h : Heap) (reporter : Reporter.t) : Prop :=
  ∀ getLastError,
    Reporter.getLastError reporter = Some getLastError →
    ∃ error, getLastError h = (h, Return error).

(** Reporters to run the methods on: one that keeps an error in the
    store, one that has no [getLastError], and one that fails at the
    start of a run. *)
Module Demo.

Definition failed (at_ : nat) : Getter :=
  λ h,
    match h !! at_ with
    | Some _ => (h, Return (Some (OtherError "snapshot mismatch")))
    | None => (h, Return None)
    end.

Definition summary : Reporter.t :=
  {| Reporter.fileMethods := ReporterDispatcher.Demo.both;
     Reporter.onRunStart := Some (λ _ h, (h, None));
     Reporter.onTestCaseResult := None;
     Reporter.onRunComplete := Some (λ _ h, (h, None));
     Reporter.getLastError := Some (failed 0);
     Reporter.classes := [1; 0] |}.

Definition plain : Reporter.t :=
  {| Reporter.fileMethods := ReporterDispatcher.Demo.silent;
     Reporter.onRunStart := None;
     Reporter.onTestCaseResult := None;
     Reporter.onRunComplete := Some (λ _ h, (h, None));
     Reporter.getLastError := None;
     Reporter.classes := [2; 0] |}.

Definition broken : Reporter.t :=
  {| Reporter.fileMethods := ReporterDispatcher.Demo.legacyOnly;
     Reporter.onRunStart := Some (λ _ h, (h, Some (OtherError "no tty")));
     Reporter.onTestCaseResult := None;
     Reporter.onRunComplete := Some (λ _ h, (h, None));
     Reporter.getLastError := Some (failed 9);
     Reporter.classes := [3; 0] |}.

Definition dispatcher : Dispatcher :=
  register summary (register broken (register plain constructor)).

End Demo.

End ReporterLifecycle.

(** ** TestNamePatternPrompt: rendering *)

Module PatternView.
Import TestNamePatternPrompt.

(** What the prompt calls without defining it: the styles of [chalk],
    the sequences of [ansiEscapes], [scroll], [getTerminalWidth],
    [stringLength] and [formatTestNameByPattern]. *)
Record Options := {
  max : Z;
  offset : option Z
}.

(** The window that [scroll(size, options)] returns; [end_] is its
    [end]. *)
Record Window := {
  start : Z;
  end_ : Z;
  index : Z
}.

Record Terminal := {
  bold : string → string;
  dim : string → string;
  italic_yellow : string → string;
  black_bgYellow : string → string;
  stripColor : string → string;
  cursorHide : string;
  clearScreen : string;
  cursorShow : string;
  eraseLine : string;
  cursorLeft : string;
  eraseDown : string;
  cursorSavePosition : string;
  cursorRestorePosition : string;
  cursorTo : Z → Z → string;
  scroll : nat → Options → Window;
  getTerminalWidth : Z;
  stringLength : string → nat;
  formatTestNameByPattern : string → string → Z → string
}.

(** A call of a method of the [Prompt] object that the view was built
    with. *)
Inductive PromptCall :=
  | enter (onSuccess onCancel : Value)
  | setSelected (pattern : string).

(** The object: the cache of the matching, the rows of the usage text,
    what was written to the pipe and the calls made on the prompt, both
    oldest first. *)
Record View := {
  cache : Prompt;
  _currentUsageRows : nat;
  _pipe : list string;
  _prompt : list PromptCall
}.

Definition write (s : string) (this : View) : View :=
  {| cache := cache this; _currentUsageRows := _currentUsageRows this;
     _pipe := _pipe this ++ [s]; _prompt := _prompt this |}.

Definition write_all (l : list string) (this : View) : View :=
  {| cache := cache this; _currentUsageRows := _currentUsageRows this;
     _pipe := _pipe this ++ l; _prompt := _prompt this |}.

Definition call (c : PromptCall) (this : View) : View :=
  {| cache := cache this; _currentUsageRows := _currentUsageRows this;
     _pipe := _pipe this; _prompt := _prompt this ++ [c] |}.

Definition set_currentUsageRows (rows : nat) (this : View) : View :=
  {| cache := cache this; _currentUsageRows := rows;
     _pipe := _pipe this; _prompt := _prompt this |}.

(** [s.split('\n').length]: one more than the newlines of [s]. *)
Fixpoint splitLength (s : string) : nat :=
  match s with
  | EmptyString => 1
  | String c s' =>
      if Ascii.eqb c (Ascii.ascii_of_nat 10) then S (splitLength s')
      else splitLength s'
  end.

(** [l.slice(start, end)] for integers [start] and [end]. *)
Definition slice {T} (l : list T) (start end_ : Z) : list T :=
  let len := Z.of_nat (length l) in
  let from := if (start <? 0)%Z then Z.max (len + start) 0 else Z.min start len in
  let to := if (end_ <? 0)%Z then Z.max (len + end_) 0 else Z.min end_ len in
  take (Z.to_nat (to - from)) (drop (Z.to_nat from) l).

Section Rendering.
Variable T : Terminal.
Context {RegExp : Type}.
Variable RegExp_new : string → string → option RegExp.
Variable RegExp_test : RegExp → string → bool.

Definition usage : string :=
  (nl +:+ bold T "Pattern Mode Usage" +:+ nl)
  +:+ (" " +:+ dim T "› Press" +:+ " Esc "
       +:+ dim T "to exit pattern mode." +:+ nl)
  +:+ (" " +:+ dim T "› Press" +:+ " Enter ")
  +:+ (dim T "to apply pattern to all tests." +:+ nl)
  +:+ nl.

Definition usageRows : nat := splitLength usage.

Definition constructor : View :=
  {| cache := TestNamePatternPrompt.constructor;
     _currentUsageRows := usageRows;
     _pipe := [];
     _prompt := [] |}.

(** [updateCachedTestResults] on the whole object. *)
Definition updateCachedTestResults
    (testResults : Nullable (list TestResult)) (this : View) : View :=
  {| cache := TestNamePatternPrompt.updateCachedTestResults testResults
                (cache this);
     _currentUsageRows := _currentUsageRows this;
     _pipe := _pipe this; _prompt := _prompt this |}.

(** [run(onSuccess, onCancel, options)]; [header] is [options.header],
    [None] when there are no options or no header. *)
Definition run (onSuccess onCancel : Value) (header : option string)
    (this : View) : View :=
  let this := write (cursorHide T) this in
  let this := write (clearScreen T) this in
  let this :=
    match header with
    | Some h =>
        if negb (h =? "")%string then
          let this := write (h +:+ nl) this in
          set_currentUsageRows (usageRows + splitLength h) this
        else set_currentUsageRows usageRows this
    | None => set_currentUsageRows usageRows this
    end in
  let this := write usage this in
  let this := write (cursorShow T) this in
  call (enter onSuccess onCancel) this.

(** The second [map] of [_printTypeahead], on the rows from position [i]
    on: the row at [index] is reported to the prompt and highlighted. *)
Fixpoint highlight (index : Z) (i : nat) (items : list string)
    : list PromptCall * list string :=
  match items with
  | [] => ([], [])
  | item :: rest =>
      let '(calls, rows) := highlight index (S i) rest in
      if (Z.of_nat i =? index)%Z
      then (setSelected ("^" +:+ stripColor T item +:+ "$") :: calls,
            black_bgYellow T (stripColor T item) :: rows)
      else (calls, item :: rows)
  end.

(** [_printTypeahead(pattern, options)]: the object afterwards and the
    error thrown, if any. *)
Definition _printTypeahead (pattern : string) (options : Options)
    (this : View) : View * option JsError :=
  match _getMatchedTests RegExp_new RegExp_test (cache this) pattern with
  | Throw e => (this, Some e)
  | Return matchedTests =>
      let total := length matchedTests in
      let inputText := dim T " pattern ›" +:+ " " +:+ pattern in
      let this := write (eraseDown T) this in
      let this := write inputText this in
      let this := write (cursorSavePosition T) this in
      let this :=
        if negb (pattern =? "")%string then
          let this :=
            if negb (total =? 0)%nat
            then write (nl +:+ nl +:+ " Pattern matches " +:+ pretty total
                        +:+ " " +:+ pluralizeTest total) this
            else write (nl +:+ nl +:+ " Pattern matches no tests") this in
          let this := write " from cached test suites." this in
          let width := getTerminalWidth T in
          let window := scroll T (length matchedTests) options in
          let formatted :=
            (λ name, formatTestNameByPattern T name pattern (width - 4)%Z)
              <$> slice matchedTests (start window) (end_ window) in
          let '(calls, rows) := highlight (index window) 0 formatted in
          let this :=
            {| cache := cache this;
               _currentUsageRows := _currentUsageRows this;
               _pipe := _pipe this; _prompt := _prompt this ++ calls |} in
          let this :=
            write_all
              ((λ output, nl +:+ " " +:+ dim T "›" +:+ " " +:+ output)
                 <$> rows) this in
          if (max options <? Z.of_nat total)%Z then
            let more := (Z.of_nat total - max options)%Z in
            write (nl +:+ " "
                   +:+ dim T ("› and " +:+ pretty more +:+ " more "
                              +:+ pluralizeTest (Z.to_nat more))) this
          else this
        else
          write (nl +:+ nl +:+ " "
                 +:+ italic_yellow T
                       "Start typing to filter by a test name regex pattern.")
            this in
      let this :=
        write (cursorTo T (Z.of_nat (stringLength T inputText))
                 (Z.of_nat (_currentUsageRows this) - 1)%Z) this in
      (write (cursorRestorePosition T) this, None)
  end.

(** [_onChange(pattern, options)]; the options are those the prompt
    passes, [None] for none, with [max] absent or present. *)
Definition _onChange (pattern : string) (options : option (option Z * option Z))
    (this : View) : View * option JsError :=
  let this := write (eraseLine T) this in
  let this := write (cursorLeft T) this in
  _printTypeahead pattern
    match options with
    | Some (Some m, o) => {| max := m; offset := o |}
    | Some (None, o) => {| max := 10; offset := o |}
    | None => {| max := 10; offset := None |}
    end
    this.

End Rendering.

(** A terminal to render on: no styles, named escape sequences, a window
    of [max] rows from the top with the first row selected. *)
Module Demo.
Definition terminal : Terminal :=
  {| bold := id; dim := id; italic_yellow := id; black_bgYellow := id;
     stripColor := id;
     cursorHide := "<hide>"; clearScreen := "<clear>"; cursorShow := "<show>";
     eraseLine := "<eraseLine>"; cursorLeft := "<left>";
     eraseDown := "<eraseDown>"; cursorSavePosition := "<save>";
     cursorRestorePosition := "<restore>";
     cursorTo := λ x y, "<to " +:+ pretty x +:+ "," +:+ pretty y +:+ ">";
     scroll := λ size options,
       {| start := 0; end_ := Z.min (Z.of_nat size) (max options);
          index := 0 |};
     getTerminalWidth := 80;
     stringLength := String.length;
     formatTestNameByPattern := λ name _ _, name |}.

Definition view : View :=
  updateCachedTestResults (Defined demoCache) (constructor terminal).
End Demo.

End PatternView.

(** * Properties *)

(** ** TestNamePatternPrompt *)

Module PromptFacts.
Import TestNamePatternPrompt.

Section Matching.
Context {RegExp : Type}.
Variable RegExp_new : string → string → option RegExp.
Variable RegExp_test : RegExp → string → bool.

Lemma visitTitle_foldl regex acc (l : list AssertionResult) :
  foldl (visitTitle RegExp_test regex) acc l
  = acc ++ List.filter (RegExp_test regex) (title <$> l).
Proof.
  revert acc. induction l as [|a l IH]; intros acc; simpl.
  - by rewrite app_nil_r.
  - rewrite IH. unfold visitTitle.
    destruct (RegExp_test regex (title a)); simpl; [|done].
    by rewrite <- app_assoc.
Qed.

Lemma visitRecord_foldl regex acc (cached : list TestResult) :
  foldl (visitRecord RegExp_test regex) acc cached
  = acc ++ List.filter (RegExp_test regex) (cachedTitles cached).
Proof.
  revert acc. induction cached as [|r cached IH]; intros acc; simpl.
  - by rewrite app_nil_r.
  - rewrite IH. unfold visitRecord. rewrite visitTitle_foldl.
    unfold cachedTitles. simpl.
    by rewrite List.filter_app, app_assoc.
Qed.

Lemma getMatchedTests_filter this pattern regex cached :
  RegExp_new pattern "i" = Some regex →
  _cachedTestResults this = Some cached →
  _getMatchedTests RegExp_new RegExp_test this pattern
  = Return (List.filter (RegExp_test regex) (cachedTitles cached)).
Proof.
  intros Hnew Hcache. unfold _getMatchedTests.
  rewrite Hnew, Hcache. by rewrite visitRecord_foldl.
Qed.

Lemma filter_sublist {T} (f : T → bool) (l : list T) :
  sublist (List.filter f l) l.
Proof.
  induction l as [|x l IH]; simpl; [constructor|].
  destruct (f x); by constructor.
Qed.

Lemma filter_count (f : string → bool) (l : list string) t :
  f t = true → count_occ string_dec (List.filter f l) t = count_occ string_dec l t.
Proof.
  intros Ht. induction l as [|x l IH]; simpl; [done|].
  destruct (string_dec x t) as [->|Hne].
  - rewrite Ht. simpl. destruct (string_dec t t); [|done]. by rewrite IH.
  - destruct (f x); simpl; [|done].
    destruct (string_dec x t); [done|]. done.
Qed.

(** Before the first update the cache is undefined, and a query with a
    pattern that compiles fails. *)
Lemma getMatchedTests_before_update pattern regex :
  RegExp_new pattern "i" = Some regex →
  ∃ e, _getMatchedTests RegExp_new RegExp_test constructor pattern = Throw e.
Proof. intros Hnew. unfold _getMatchedTests. rewrite Hnew. simpl. eauto. Qed.

End Matching.

(** C6: when the pattern does not compile, [_getMatchedTests] returns the
    empty array, whatever the cache holds (even before the cache was
    ever assigned), and it does not throw. *)
Theorem getMatchedTests_compile_failure {RegExp : Type}
    (RegExp_new : string → string → option RegExp)
    (RegExp_test : RegExp → string → bool)
    (this : Prompt) (pattern : string) :
  RegExp_new pattern "i" = None →
  _getMatchedTests RegExp_new RegExp_test this pattern = Return [].
Proof. intros Hnew. unfold _getMatchedTests. by rewrite Hnew. Qed.

Lemma getMatchedTests_compile_failure_witness :
  Words.compile "(" "i" = None
  ∧ _getMatchedTests Words.compile Words.test constructor "(" = Return [].
Proof.
  split; [reflexivity|].
  apply (getMatchedTests_compile_failure Words.compile Words.test constructor "(").
  reflexivity.
Defined.

(** C7: when the pattern compiles, [_getMatchedTests] returns the cached
    titles that the regular expression accepts, records in stored order
    and titles in stored order within a record: the result is a
    subsequence of the cached titles in which every accepted title occurs
    as often as it is cached.  With the titles "adds numbers" and
    "subtracts numbers", a pattern that the engine finds in the first
    only yields the first, and one it finds in both yields both, in
    that order. *)
Theorem getMatchedTests_scans_in_order {RegExp : Type}
    (RegExp_new : string → string → option RegExp)
    (RegExp_test : RegExp → string → bool)
    (this : Prompt) (pattern : string) (regex : RegExp)
    (cached : list TestResult) :
  RegExp_new pattern "i" = Some regex →
  _cachedTestResults this = Some cached →
  ∃ matched,
    _getMatchedTests RegExp_new RegExp_test this pattern = Return matched
    ∧ matched = List.filter (RegExp_test regex) (cachedTitles cached)
    ∧ sublist matched (cachedTitles cached)
    ∧ (∀ t, RegExp_test regex t = true →
         count_occ string_dec matched t
         = count_occ string_dec (cachedTitles cached) t)
    ∧ (∀ t, RegExp_test regex t = false → t ∉ matched)
    ∧ (cachedTitles cached = ["adds numbers"; "subtracts numbers"]%string →
       RegExp_test regex "adds numbers" = true →
       RegExp_test regex "subtracts numbers" = false →
       matched = ["adds numbers"]%string)
    ∧ (cachedTitles cached = ["adds numbers"; "subtracts numbers"]%string →
       RegExp_test regex "adds numbers" = true →
       RegExp_test regex "subtracts numbers" = true →
       matched = ["adds numbers"; "subtracts numbers"]%string).
Proof.
  intros Hnew Hcache. eexists. split.
  { by apply getMatchedTests_filter. }
  split; [done|]. split; [apply filter_sublist|].
  split; [intros t Ht; by apply filter_count|].
  split.
  { intros t Ht Hin. apply list_elem_of_In, List.filter_In in Hin.
    destruct Hin as [_ Hin]. congruence. }
  split; intros -> Ha Hs; simpl; by rewrite Ha, Hs.
Qed.

Lemma getMatchedTests_scans_in_order_witness :
  _getMatchedTests Words.compile Words.test
    (updateCachedTestResults (Defined demoCache) constructor) "add"
  = Return ["adds numbers"]%string
  ∧ _getMatchedTests Words.compile Words.test
      (updateCachedTestResults (Defined demoCache) constructor) "numbers"
    = Return ["adds numbers"; "subtracts numbers"]%string.
Proof.
  split.
  - destruct (getMatchedTests_scans_in_order Words.compile Words.test
                (updateCachedTestResults (Defined demoCache) constructor)
                "add" (list_ascii_of_string "add") demoCache
                eq_refl eq_refl)
      as (matched & Hrun & _ & _ & _ & _ & Hone & _).
    rewrite Hrun. f_equal. apply Hone; reflexivity.
  - destruct (getMatchedTests_scans_in_order Words.compile Words.test
                (updateCachedTestResults (Defined demoCache) constructor)
                "numbers" (list_ascii_of_string "numbers") demoCache
                eq_refl eq_refl)
      as (matched & Hrun & _ & _ & _ & _ & _ & Hboth).
    rewrite Hrun. f_equal. apply Hboth; reflexivity.
Defined.

(** C10: after [updateCachedTestResults(null)] or
    [updateCachedTestResults(undefined)] the cache is the empty array,
    and every query returns the empty array instead of throwing. *)
Theorem updateCachedTestResults_nullish {RegExp : Type}
    (RegExp_new : string → string → option RegExp)
    (RegExp_test : RegExp → string → bool)
    (this : Prompt) (pattern : string) :
  _cachedTestResults (updateCachedTestResults Null this) = Some []
  ∧ _cachedTestResults (updateCachedTestResults Undefined this) = Some []
  ∧ _getMatchedTests RegExp_new RegExp_test
      (updateCachedTestResults Null this) pattern = Return []
  ∧ _getMatchedTests RegExp_new RegExp_test
      (updateCachedTestResults Undefined this) pattern = Return [].
Proof.
  split; [done|]. split; [done|].
  unfold _getMatchedTests. simpl.
  destruct (RegExp_new pattern "i"); done.
Qed.

End PromptFacts.

(** ** ReporterDispatcher *)

Module DispatcherFacts.
Import ReporterDispatcher.

Lemma for_of_fallback preferred legacy getPreferred getLegacy args
    (reporters : list Reporter.t) (i : nat) (h : Heap) :
  let expected :=
    fallbackCalls preferred legacy (present ∘ getPreferred)
      (present ∘ getLegacy) args i reporters in
  match for_of (fallbackBody preferred legacy getPreferred getLegacy args)
          i reporters h with
  | (calls, _, Return _) => calls = expected
  | (calls, _, Throw _) => calls `prefix_of` expected
  end.
Proof.
  revert i h. induction reporters as [|r rest IH]; intros i h; simpl.
  - done.
  - unfold bind, fallbackBody at 1. unfold compose at 1 2.
    destruct (getPreferred r) as [f|] eqn:Hp; simpl.
    + unfold await. destruct (f args h) as [h1 [e|]]; simpl.
      * by apply prefix_cons, prefix_nil.
      * specialize (IH (S i) h1). simpl in IH.
        destruct (for_of _ (S i) rest h1) as [[c2 h2] [[]|e]]; simpl.
        -- by rewrite IH.
        -- by apply prefix_cons.
    + destruct (getLegacy r) as [g|] eqn:Hl; simpl.
      * unfold await. destruct (g args h) as [h1 [e|]]; simpl.
        -- by apply prefix_cons, prefix_nil.
        -- specialize (IH (S i) h1). simpl in IH.
           destruct (for_of _ (S i) rest h1) as [[c2 h2] [[]|e]]; simpl.
           ++ by rewrite IH.
           ++ by apply prefix_cons.
      * specialize (IH (S i) h). simpl in IH.
        destruct (for_of _ (S i) rest h) as [[c2 h2] [[]|e]]; simpl; done.
Qed.


(** Every call in the list is the one the reporter at that position
    warrants. *)
Lemma fallbackCalls_lookup preferred legacy hasPreferred hasLegacy args
    (reporters : list Reporter.t) (i : nat) (c : Call) :
  c ∈ fallbackCalls preferred legacy hasPreferred hasLegacy args i reporters →
  ∃ r, reporters !! (callee c - i) = Some r ∧ i ≤ callee c
       ∧ arguments c = args
       ∧ ((hasPreferred r = true ∧ method c = preferred)
          ∨ (hasPreferred r = false ∧ hasLegacy r = true
             ∧ method c = legacy)).
Proof.
  revert i. induction reporters as [|r rest IH]; intros i; simpl.
  - by intros ?%elem_of_nil.
  - intros [Hhere|Hrest]%elem_of_app.
    + exists r. destruct (hasPreferred r) eqn:Hp;
        [|destruct (hasLegacy r) eqn:Hl].
      * apply list_elem_of_singleton in Hhere as ->. simpl.
        rewrite Nat.sub_diag. naive_solver.
      * apply list_elem_of_singleton in Hhere as ->. simpl.
        rewrite Nat.sub_diag. naive_solver.
      * by apply elem_of_nil in Hhere.
    + destruct (IH _ Hrest) as (r' & Hr' & Hle & Hargs & Hm).
      exists r'. split; [|split; [lia|done]].
      replace (callee c - i) with (S (callee c - S i)) by lia. done.
Qed.


Lemma release_lookup (o : Obj) :
  release o !! "sourceMaps" = Some VUndefined
  ∧ release o !! "coverage" = Some VUndefined
  ∧ release o !! "console" = Some VUndefined
  ∧ ∀ field : string,
      field ≠ "sourceMaps" → field ≠ "coverage" → field ≠ "console" →
      release o !! field = o !! field.
Proof.
  unfold release. repeat split.
  - by rewrite lookup_insert_ne, lookup_insert_ne, lookup_insert_eq.
  - by rewrite lookup_insert_ne, lookup_insert_eq.
  - by rewrite lookup_insert_eq.
  - intros field H1 H2 H3. by rewrite !lookup_insert_ne.
Qed.

(** What the method does after the loop. *)
Lemma onTestFileResult_unfold this test l results (h : Heap) :
  onTestFileResult this test l results h
  = match for_of (fileResultBody test l results) 0 (_reporters this) h with
    | (calls, h1, Return _) => (calls, alter release l h1, Return ())
    | (calls, h1, Throw e) => (calls, h1, Throw e)
    end.
Proof.
  unfold onTestFileResult, bind.
  destruct (for_of _ 0 (_reporters this) h) as [[calls h1] [[]|e]]; [|done].
  unfold assign. simpl. rewrite !app_nil_r.
  rewrite !alter_alter_eq. done.
Qed.



(** C5: when the loop over the reporters of [onTestFileResult] has run to
    its end, leaving the store [h1], the method ends on the store that
    differs from [h1] only in the [sourceMaps], [coverage] and [console]
    fields of the test result, which are [undefined]; with no reporter
    registered the loop leaves the store as it found it. *)
Theorem onTestFileResult_releases_payload
    (this : Dispatcher) (test : Value) (testResult : nat) (results : Value)
    (h h1 : Heap) (calls : list Call) :
  for_of (fileResultBody test testResult results) 0 (_reporters this) h
  = (calls, h1, Return ()) →
  ∃ h',
    onTestFileResult this test testResult results h = (calls, h', Return ())
    ∧ (∀ o, h1 !! testResult = Some o →
         ∃ o', h' !! testResult = Some o'
               ∧ o' !! "sourceMaps" = Some VUndefined
               ∧ o' !! "coverage" = Some VUndefined
               ∧ o' !! "console" = Some VUndefined
               ∧ ∀ field : string,
                   field ≠ "sourceMaps" → field ≠ "coverage" →
                   field ≠ "console" → o' !! field = o !! field)
    ∧ (∀ l, l ≠ testResult → h' !! l = h1 !! l)
    ∧ (_reporters this = [] → calls = [] ∧ h1 = h).
Proof.
  intros Hloop. exists (alter release testResult h1).
  split; [by rewrite onTestFileResult_unfold, Hloop|].
  split.
  { intros o Ho. exists (release o).
    split; [by rewrite lookup_alter_eq, Ho|]. apply release_lookup. }
  split.
  { intros l Hl. by rewrite lookup_alter_ne. }
  intros Hnone. rewrite Hnone in Hloop. simpl in Hloop.
  unfold ret in Hloop. by injection Hloop as <- <-.
Qed.

Lemma onTestFileResult_releases_payload_witness :
  ∃ h',
    onTestFileResult Demo.dispatcher VNull 0 VNull Demo.store
    = ([ {| callee := 0; method := onTestResult_;
            arguments := [VNull; VObject 0; VNull] |};
         {| callee := 2; method := onTestFileResult_;
            arguments := [VNull; VObject 0; VNull] |} ], h', Return ())
    ∧ (h' !! 0) ≫= (.!! "coverage") = Some VUndefined
    ∧ (h' !! 0) ≫= (.!! "numFailingTests") = Some (VNumber 0)
    ∧ (h' !! 0) ≫= (.!! "preferred") = Some (VBool true).
Proof.
  destruct (onTestFileResult_releases_payload Demo.dispatcher VNull 0 VNull
              Demo.store
              (<[0 := <["preferred" := VBool true]>
                        (<["legacy" := VBool true]> Demo.testResult)]>
                 Demo.store)
              [ {| callee := 0; method := onTestResult_;
                   arguments := [VNull; VObject 0; VNull] |};
                {| callee := 2; method := onTestFileResult_;
                   arguments := [VNull; VObject 0; VNull] |} ])
    as (h' & Hrun & Hobj & _).
  { vm_compute. reflexivity. }
  exists h'. split; [exact Hrun|].
  destruct (Hobj _ (lookup_insert_eq _ _ _))
    as (o' & -> & _ & Hcov & _ & Hother).
  simpl. split; [exact Hcov|].
  split; rewrite Hother by done; reflexivity.
Defined.

(** A rejection is not caught by the dispatcher, and the fields are then
    left as the reporters left them. *)
Lemma onTestFileResult_propagates this test testResult results
    (h h1 : Heap) calls e :
  for_of (fileResultBody test testResult results) 0 (_reporters this) h
  = (calls, h1, Throw e) →
  onTestFileResult this test testResult results h = (calls, h1, Throw e).
Proof. intros Hloop. by rewrite onTestFileResult_unfold, Hloop. Qed.

End DispatcherFacts.

(** ** The watch controller *)

Module WatchFacts.
Import Watch.

(** *** Keys *)

(** Turns the hypothesis that the key codes are distinct into the
    inequalities between them. *)
Ltac key_facts H :=
  unfold KEYS.distinct, KEYS.all in H;
  repeat (apply NoDup_cons in H as [? H]);
  repeat match goal with
         | Hn : _ ∉ _ :: _ |- _ => apply not_elem_of_cons in Hn as [? Hn]
         | Hn : _ ∉ [] |- _ => clear Hn
         end.

(** Decides the comparisons between key codes in the goal. *)
Ltac decide_keys :=
  repeat match goal with
         | |- context [String.eqb ?a ?a] => rewrite (String.eqb_refl a)
         | |- context [String.eqb ?a ?b] =>
             rewrite (proj2 (String.eqb_neq a b)) by congruence
         end.

Lemma demo_keys_distinct : KEYS.distinct Demo.keys.
Proof.
  unfold KEYS.distinct. apply (bool_decide_unpack _). by vm_compute.
Qed.

Section Controller.
Variable X : Externals.

(** *** startRun *)

Lemma startRun_running overrideConfig st :
  isRunning st = true → startRun X overrideConfig st = (st, None).
Proof. intros H. unfold startRun. by rewrite H. Qed.

Lemma startRun_idle overrideConfig st :
  isRunning st = false →
  let w := length (watchers st) in
  let st' := (startRun X overrideConfig st).1 in
  isRunning st' = true
  ∧ testWatcher st' = Some w
  ∧ watchers st' = watchers st ++ [TestWatcher.new true]
  ∧ runs st' = runs st ++ [ {| runContext := hasteContext st;
                               runConfig := overrideConfig ∪ config st;
                               runWatcher := Some w;
                               settlement := Pending |} ]
  ∧ isEnteringPattern st' = isEnteringPattern st
  ∧ process st' = process st.
Proof. intros H. unfold startRun. rewrite H. simpl. done. Qed.

(** *** Keys outside pattern mode while the flag is set *)

Lemma onKeypress_abort st key w :
  KEYS.distinct (keys X) →
  isEnteringPattern st = false →
  isRunning st = true →
  testWatcher st = Some w →
  key ∈ [KEYS.Q (keys X); KEYS.ENTER (keys X); KEYS.A (keys X);
         KEYS.O (keys X); KEYS.P (keys X)] →
  onKeypress X key st = TestWatcher_setState w true st.
Proof.
  intros Hd Hmode Hrun Hw Hkey. key_facts Hd.
  unfold onKeypress. rewrite Hmode, Hrun, Hw.
  repeat (apply elem_of_cons in Hkey as [->|Hkey]);
    [..|by apply elem_of_nil in Hkey];
    simpl; decide_keys; reflexivity.
Qed.

Lemma onKeypress_update_running st :
  KEYS.distinct (keys X) →
  isEnteringPattern st = false →
  isRunning st = true →
  onKeypress X (KEYS.U (keys X)) st = st.
Proof.
  intros Hd Hmode Hrun. key_facts Hd.
  unfold onKeypress. rewrite Hmode, Hrun.
  simpl. decide_keys. simpl. rewrite andb_false_r.
  by rewrite startRun_running.
Qed.

(** *** Escape in pattern mode *)


(** *** The invariant *)

Lemma consistent_frame st st' :
  isRunning st' = isRunning st →
  testWatcher st' = testWatcher st →
  runs st' = runs st →
  length (watchers st') = length (watchers st) →
  consistent st → consistent st'.
Proof.
  unfold consistent, activeRuns. by intros -> -> -> ->.
Qed.

Lemma consistent_active st :
  consistent st → length (activeRuns st) ≤ 1.
Proof.
  intros [_ H]. destruct (activeRuns st) as [|r [|r' l]]; simpl;
    [lia|lia|done].
Qed.

Lemma consistent_idle st :
  consistent st → isRunning st = false → activeRuns st = [].
Proof.
  intros [_ H] Hidle. destruct (activeRuns st) as [|r [|r' l]];
    [done| |done].
  destruct H. congruence.
Qed.

Lemma isPending_active st i :
  isPending i st = true →
  ∃ r, runs st !! i = Some r ∧ pending r = true ∧ r ∈ activeRuns st.
Proof.
  unfold isPending, activeRuns. destruct (runs st !! i) as [r|] eqn:Hr;
    [|done].
  intros Hp. exists r. split; [done|]. split; [done|].
  apply list_elem_of_In, List.filter_In. split; [|done].
  apply list_elem_of_In. by eapply list_elem_of_lookup_2.
Qed.

(** Settling the one run that is pending leaves none pending. *)
Lemma filter_pending_settle (l : list Run) i r s :
  length (List.filter pending l) ≤ 1 →
  l !! i = Some r → pending r = true → s ≠ Pending →
  List.filter pending
    (alter (λ r, {| runContext := runContext r;
                    runConfig := runConfig r;
                    runWatcher := runWatcher r;
                    settlement := s |}) i l) = [].
Proof.
  intros Hlen Hi Hp Hs. revert i Hlen Hi.
  induction l as [|x l IH]; intros i Hlen Hi; [done|].
  destruct i as [|i]; simpl in *.
  - injection Hi as ->. rewrite Hp in Hlen. simpl in Hlen.
    unfold pending at 1. simpl. destruct s; [done|..];
      destruct (List.filter pending l); simpl in *; done || lia.
  - destruct (pending x) eqn:Hx; simpl in Hlen.
    + assert (In r (List.filter pending l)) as Hin.
      { apply List.filter_In. split; [|done].
        apply list_elem_of_In. by eapply list_elem_of_lookup_2. }
      destruct (List.filter pending l); simpl in *; [done|lia].
    + by apply IH.
Qed.

Lemma startRun_consistent overrideConfig st :
  consistent st → consistent (startRun X overrideConfig st).1.
Proof.
  intros Hc. destruct (isRunning st) eqn:Hrun.
  - by rewrite startRun_running.
  - pose proof (consistent_idle _ Hc Hrun) as Hnone.
    destruct (startRun_idle overrideConfig st Hrun)
      as (Hr & Hw & Hws & Hrs & _).
    split.
    + intros _. eexists. split; [exact Hw|].
      rewrite Hws, length_app. simpl. lia.
    + unfold activeRuns in *. rewrite Hrs, List.filter_app, Hnone.
      simpl. by rewrite Hw.
Qed.

Lemma onComplete_settle_consistent st i results :
  consistent st → isPending i st = true →
  consistent (settle i Fulfilled (onComplete X results st)).
Proof.
  intros Hc Hp. destruct (isPending_active _ _ Hp) as (r & Hi & Hpr & _).
  pose proof (consistent_active _ Hc) as Hlen.
  assert (isRunning (settle i Fulfilled (onComplete X results st)) = false)
    as Hidle.
  { unfold onComplete. simpl. by destruct (displayHelp st). }
  assert (runs (settle i Fulfilled (onComplete X results st))
          = alter (λ r, {| runContext := runContext r;
                           runConfig := runConfig r;
                           runWatcher := runWatcher r;
                           settlement := Fulfilled |}) i (runs st))
    as Hruns.
  { unfold onComplete. simpl. by destruct (displayHelp st). }
  split; [congruence|].
  unfold activeRuns. rewrite Hruns.
  by rewrite (filter_pending_settle _ i r).
Qed.

Lemma onRejected_settle st i error :
  consistent st → isPending i st = true →
  let st' := onRejected X error (settle i (Rejected error) st) in
  activeRuns st' = []
  ∧ isRunning st' = isRunning st
  ∧ testWatcher st' = testWatcher st
  ∧ watchers st' = watchers st.
Proof.
  intros Hc Hp. destruct (isPending_active _ _ Hp) as (r & Hi & Hpr & _).
  pose proof (consistent_active _ Hc) as Hlen.
  simpl. split; [|done].
  unfold activeRuns. simpl. by rewrite (filter_pending_settle _ i r).
Qed.

(** Closes a goal [consistent st'] for a state that differs from a
    consistent one in fields the invariant does not read, or that
    comes from such a state by [startRun]. *)
Ltac frame Hc :=
  first
    [ exact Hc
    | apply startRun_consistent;
      refine (consistent_frame _ _ _ _ _ _ Hc); reflexivity
    | refine (consistent_frame _ _ _ _ _ _ Hc);
      first [reflexivity | apply length_alter] ].

Ltac branches :=
  cbv zeta;
  repeat match goal with
         | |- _ (if ?b then _ else _) => destruct b
         | |- _ (match ?o with Some _ => _ | None => _ end) => destruct o
         end.

Lemma onKeypress_consistent key st :
  consistent st → consistent (onKeypress X key st).
Proof. intros Hc. unfold onKeypress. branches; frame Hc. Qed.

Lemma onChange_consistent hasteFS moduleMap st :
  consistent st → consistent (onChange X hasteFS moduleMap st).
Proof. intros Hc. unfold onChange. frame Hc. Qed.

Lemma step_consistent st ev :
  consistent st → consistent (step X st ev).
Proof.
  intros Hc. unfold step. destruct (process st); [|done..].
  destruct ev as [key|hasteFS moduleMap|i results|i error].
  - destruct (listening st); [|done]. by apply onKeypress_consistent.
  - by apply onChange_consistent.
  - destruct (isPending i st) eqn:Hp; [|done].
    by apply onComplete_settle_consistent.
  - destruct (isPending i st) eqn:Hp; [|done].
    destruct (onRejected_settle st i error Hc Hp) as (Hnone & Hr & Hw & Hws).
    destruct Hc as [Hc _]. split.
    + rewrite Hr, Hw, Hws. exact Hc.
    + by rewrite Hnone.
Qed.

Lemma steps_consistent st evs :
  consistent st → consistent (steps X st evs).
Proof.
  revert st. induction evs as [|ev evs IH]; intros st Hc; [done|].
  simpl. apply IH. by apply step_consistent.
Qed.

Lemma watch_consistent config argv hasteContext raw :
  consistent (watch X config argv hasteContext raw).
Proof.
  unfold watch. apply startRun_consistent. split; [done|]. done.
Qed.

Lemma reachable_consistent st : reachable X st → consistent st.
Proof.
  intros (config & argv & hasteContext & raw & evs & ->).
  apply steps_consistent, watch_consistent.
Qed.

(** *** A set flag without a run *)

Lemma onKeypress_running key st :
  isRunning st = true →
  isRunning (onKeypress X key st) = true
  ∧ runs (onKeypress X key st) = runs st.
Proof.
  intros Hrun.
  pose (kept := λ s, isRunning s = true ∧ runs s = runs st).
  change (kept (onKeypress X key st)).
  unfold onKeypress. branches;
    rewrite ?startRun_running by exact Hrun;
    (split; [exact Hrun|reflexivity]).
Qed.

Lemma onChange_running hasteFS moduleMap st :
  isRunning st = true →
  isRunning (onChange X hasteFS moduleMap st) = true
  ∧ runs (onChange X hasteFS moduleMap st) = runs st.
Proof.
  intros Hrun. unfold onChange.
  rewrite startRun_running by exact Hrun. done.
Qed.

Lemma step_wedged st ev :
  wedged st → wedged (step X st ev) ∧ runs (step X st ev) = runs st.
Proof.
  intros [Hrun Hnone].
  assert (∀ st', isRunning st' = true ∧ runs st' = runs st →
                 wedged st' ∧ runs st' = runs st) as Hkeep.
  { intros st' [Hr Hrs]. split; [|done]. split; [done|].
    unfold activeRuns in *. by rewrite Hrs. }
  assert (∀ i, isPending i st = false) as Hnot.
  { intros i. destruct (isPending i st) eqn:Hp; [|done].
    destruct (isPending_active _ _ Hp) as (r & _ & _ & Hin).
    rewrite Hnone in Hin. by apply elem_of_nil in Hin. }
  unfold step. destruct (process st); [|by apply Hkeep..].
  destruct ev as [key|hasteFS moduleMap|i results|i error].
  - destruct (listening st); [|by apply Hkeep].
    by apply Hkeep, onKeypress_running.
  - by apply Hkeep, onChange_running.
  - rewrite Hnot. by apply Hkeep.
  - rewrite Hnot. by apply Hkeep.
Qed.

Lemma steps_wedged st evs :
  wedged st → wedged (steps X st evs) ∧ runs (steps X st evs) = runs st.
Proof.
  revert st. induction evs as [|ev evs IH]; intros st Hw; [done|].
  simpl. destruct (step_wedged st ev Hw) as [Hw' Hrs].
  destruct (IH _ Hw') as [Hw'' Hrs']. split; [done|congruence].
Qed.

End Controller.

(** *** The claims about the controller *)

(** C1 does not hold of the code: when the promise of a run is rejected
    the rejection handler writes the stack to the error stream and does
    nothing else.  The running flag stays set, the token is not
    replaced, and from then on no event clears the flag or starts a
    run. *)
Theorem rejected_run_leaves_flag_set (X : Externals) (st : State)
    (i : nat) (error : JsError) :
  consistent st →
  process st = Alive →
  isPending i st = true →
  let st' := step X st (Fail i error) in
  stderr st' = stderr st ++ [chalk.red (colors X) (stack error)]
  ∧ isRunning st' = true
  ∧ testWatcher st' = testWatcher st
  ∧ watchers st' = watchers st
  ∧ activeRuns st' = []
  ∧ ∀ evs overrideConfig,
      isRunning (steps X st' evs) = true
      ∧ runs (steps X st' evs) = runs st'
      ∧ startRun X overrideConfig (steps X st' evs)
        = (steps X st' evs, None).
Proof.
  intros Hc Halive Hp. simpl. unfold step. rewrite Halive, Hp.
  destruct (onRejected_settle X st i error Hc Hp) as (Hnone & Hr & Hw & Hws).
  destruct (isPending_active _ _ Hp) as (r & _ & _ & Hin).
  assert (isRunning st = true) as Hrun.
  { destruct Hc as [_ Hc]. destruct (activeRuns st) as [|r0 [|r1 l]];
      [by apply elem_of_nil in Hin|by destruct Hc|done]. }
  split; [done|]. split; [congruence|]. split; [done|]. split; [done|].
  split; [done|]. intros evs overrideConfig.
  destruct (steps_wedged X _ evs (conj (eq_trans Hr Hrun) Hnone))
    as [[Hrun' _] Hruns].
  split; [done|]. split; [done|]. by apply startRun_running.
Qed.

Lemma rejected_run_leaves_flag_set_witness :
  let st' := step Demo.externals Demo.started
               (Fail 0 (OtherError "resolver failed")) in
  isRunning st' = true
  ∧ activeRuns st' = []
  ∧ isRunning (steps Demo.externals st'
                 [Keypress "0d"; Change (VObject 1) (VObject 2);
                  Keypress "75"]) = true
  ∧ length (runs (steps Demo.externals st'
                    [Keypress "0d"; Change (VObject 1) (VObject 2);
                     Keypress "75"])) = 1.
Proof.
  assert (consistent Demo.started) as Hc.
  { split; [intros _; exists 0; split; [reflexivity|simpl; lia]|].
    vm_compute. done. }
  destruct (rejected_run_leaves_flag_set Demo.externals Demo.started 0
              (OtherError "resolver failed") Hc eq_refl eq_refl)
    as (_ & Hrun & _ & _ & Hnone & Hlater).
  split; [exact Hrun|]. split; [exact Hnone|].
  destruct (Hlater [Keypress "0d"; Change (VObject 1) (VObject 2);
                    Keypress "75"] ∅) as (Hrun' & Hruns & _).
  split; [exact Hrun'|]. rewrite Hruns. reflexivity.
Defined.

(** C2: [startRun] called while the running flag is set returns [null]
    and leaves the state as it is: no run is added and nothing is
    queued.  In every state that a session reaches at most one run has
    not settled. *)
Theorem startRun_dropped_while_running (X : Externals) (st : State)
    (overrideConfig : Config) :
  isRunning st = true →
  startRun X overrideConfig st = (st, None)
  ∧ runs (startRun X overrideConfig st).1 = runs st
  ∧ ∀ config argv hasteContext raw (evs : list Event),
      length (activeRuns (steps X (watch X config argv hasteContext raw) evs))
      ≤ 1.
Proof.
  intros Hrun. rewrite startRun_running by done.
  split; [done|]. split; [done|].
  intros config argv hasteContext raw evs.
  apply consistent_active, steps_consistent, watch_consistent.
Qed.

Lemma startRun_dropped_while_running_witness :
  isRunning Demo.started = true
  ∧ startRun Demo.externals {[ "updateSnapshot" := VBool true ]} Demo.started
    = (Demo.started, None)
  ∧ length (runs Demo.started) = 1.
Proof.
  split; [reflexivity|].
  destruct (startRun_dropped_while_running Demo.externals Demo.started
              {[ "updateSnapshot" := VBool true ]} eq_refl)
    as (Hsame & _ & _).
  split; [exact Hsame|reflexivity].
Defined.

(** C3: outside pattern mode and while a run is active, the keys q,
    enter, a, o and p set the [interrupted] flag of the token of that
    run and do nothing else: the state afterwards is the state before
    with that one flag set, so no run is added, the mode and [argv] are
    as before, the process goes on and nothing is written. *)
Theorem abort_key_only_interrupts (X : Externals) (st : State)
    (key : string) (r : Run) :
  KEYS.distinct (keys X) →
  reachable X st →
  isEnteringPattern st = false →
  r ∈ activeRuns st →
  key ∈ [KEYS.Q (keys X); KEYS.ENTER (keys X); KEYS.A (keys X);
         KEYS.O (keys X); KEYS.P (keys X)] →
  ∃ w token,
    runWatcher r = Some w
    ∧ watchers st !! w = Some token
    ∧ onKeypress X key st = TestWatcher_setState w true st
    ∧ watchers (onKeypress X key st)
      = <[w := TestWatcher.setState true token]> (watchers st)
    ∧ TestWatcher.interrupted <$> watchers (onKeypress X key st) !! w
      = Some true
    ∧ runs (onKeypress X key st) = runs st
    ∧ isRunning (onKeypress X key st) = isRunning st
    ∧ isEnteringPattern (onKeypress X key st) = false
    ∧ currentPattern (onKeypress X key st) = currentPattern st
    ∧ argv (onKeypress X key st) = argv st
    ∧ pipe (onKeypress X key st) = pipe st
    ∧ process (onKeypress X key st) = process st.
Proof.
  intros Hd Hreach Hmode Hin Hkey.
  pose proof (reachable_consistent X st Hreach) as [Htok Hact].
  destruct (activeRuns st) as [|r0 [|r1 l]];
    [by apply elem_of_nil in Hin| |done].
  apply list_elem_of_singleton in Hin as ->. destruct Hact as [Hrun Hw].
  destruct (Htok Hrun) as (w & Hsome & Hlt).
  destruct (lookup_lt_is_Some_2 _ _ Hlt) as [token Htoken].
  exists w, token. split; [congruence|]. split; [done|].
  rewrite (onKeypress_abort X st key w Hd Hmode Hrun Hsome Hkey).
  unfold TestWatcher_setState. simpl.
  split; [done|].
  assert (alter (TestWatcher.setState true) w (watchers st)
          = <[w := TestWatcher.setState true token]> (watchers st)) as ->.
  { apply list_eq. intros j. destruct (decide (w = j)) as [<-|Hne].
    - by rewrite list_lookup_alter_eq, list_lookup_insert_eq, Htoken.
    - by rewrite list_lookup_alter_ne, list_lookup_insert_ne. }
  split; [done|]. split; [by rewrite list_lookup_insert_eq|done].
Qed.

Lemma abort_key_only_interrupts_witness :
  Demo.started ≠ onKeypress Demo.externals "71" Demo.started
  ∧ TestWatcher.interrupted <$> watchers Demo.started !! 0 = Some false
  ∧ TestWatcher.interrupted
      <$> watchers (onKeypress Demo.externals "71" Demo.started) !! 0
    = Some true
  ∧ process (onKeypress Demo.externals "71" Demo.started) = Alive
  ∧ pipe (onKeypress Demo.externals "71" Demo.started) = pipe Demo.started.
Proof.
  assert (reachable Demo.externals Demo.started) as Hreach.
  { exists ∅, Demo.argv, (VObject 0), true, []. reflexivity. }
  assert (KEYS.distinct (keys Demo.externals)) as Hd.
  { unfold KEYS.distinct. apply (bool_decide_unpack _). vm_compute. exact I. }
  destruct (abort_key_only_interrupts Demo.externals Demo.started "71"
              {| runContext := VObject 0; runConfig := ∅;
                 runWatcher := Some 0; settlement := Pending |}
              Hd Hreach eq_refl)
    as (w & token & Hw & _ & _ & _ & Hflag & _ & _ & _ & _ & _ & Hpipe & Hproc).
  { vm_compute. apply list_elem_of_here. }
  { simpl. do 0 right. apply list_elem_of_here. }
  injection Hw as <-.
  split.
  { intros Heq. rewrite <- Heq in Hflag. discriminate Hflag. }
  split; [reflexivity|]. split; [exact Hflag|].
  split; [rewrite Hproc; reflexivity|exact Hpipe].
Defined.



(** C9: outside pattern mode and while the running flag is set, the key
    u changes nothing.  It is not one of the keys that interrupt, so no
    token is touched; it reaches [startRun] with the override that
    updates snapshots, and that call is dropped. *)
Theorem update_key_dropped_while_running (X : Externals) (st : State) :
  KEYS.distinct (keys X) →
  isEnteringPattern st = false →
  isRunning st = true →
  onKeypress X (KEYS.U (keys X)) st = st
  ∧ indexOf [KEYS.Q (keys X); KEYS.ENTER (keys X); KEYS.A (keys X);
             KEYS.O (keys X); KEYS.P (keys X)] (KEYS.U (keys X)) = (-1)%Z
  ∧ startRun X {[ "updateSnapshot" := VBool true ]} st = (st, None)
  ∧ step X st (Keypress (KEYS.U (keys X))) = st.
Proof.
  intros Hd Hmode Hrun.
  pose proof (onKeypress_update_running X st Hd Hmode Hrun) as Hsame.
  split; [done|]. split.
  { key_facts Hd. simpl. decide_keys. done. }
  split; [by apply startRun_running|].
  unfold step. rewrite Hsame. by destruct (process st), (listening st).
Qed.

Lemma update_key_dropped_while_running_witness :
  isRunning Demo.started = true
  ∧ onKeypress Demo.externals "75" Demo.started = Demo.started.
Proof.
  assert (KEYS.distinct (keys Demo.externals)) as Hd.
  { unfold KEYS.distinct. apply (bool_decide_unpack _). vm_compute. exact I. }
  split; [reflexivity|].
  apply (update_key_dropped_while_running Demo.externals Demo.started Hd
           eq_refl eq_refl).
Defined.

End WatchFacts.

Module SessionFacts.
Import Watch WatchFacts Session.

Section Controller.
Variable X : Externals.

(** [startRun] reads and writes the running flag, the tokens, the pipe and
    the runs, and nothing else. *)
Lemma startRun_frame overrideConfig st :
  let st' := (startRun X overrideConfig st).1 in
  isEnteringPattern st' = isEnteringPattern st
  ∧ currentPattern st' = currentPattern st
  ∧ process st' = process st
  ∧ argv st' = argv st
  ∧ displayHelp st' = displayHelp st
  ∧ hasSnapshotFailure st' = hasSnapshotFailure st
  ∧ hasteContext st' = hasteContext st
  ∧ config st' = config st
  ∧ listening st' = listening st
  ∧ stderr st' = stderr st.
Proof. unfold startRun. by destruct (isRunning st). Qed.

Lemma indexOf_found (l : list string) (x : string) :
  x ∈ l → indexOf l x ≠ (-1)%Z ∧ (0 ≤ indexOf l x)%Z.
Proof.
  induction l as [|y l IH]; [by intros ?%elem_of_nil|].
  intros Hin. simpl. destruct (x =? y)%string eqn:Hxy; [lia|].
  apply String.eqb_neq in Hxy.
  apply elem_of_cons in Hin as [->|Hin]; [done|].
  destruct (IH Hin) as [Hne Hge].
  destruct (indexOf l x =? -1)%Z eqn:Hi; [apply Z.eqb_eq in Hi; lia|lia].
Qed.

Lemma indexOf_absent (l : list string) (x : string) :
  x ∉ l → indexOf l x = (-1)%Z.
Proof.
  induction l as [|y l IH]; [done|].
  intros [Hne Hnot]%not_elem_of_cons. simpl.
  rewrite (proj2 (String.eqb_neq x y) Hne), (IH Hnot). done.
Qed.

Lemma fmap_runWatcher_settle (l : list Run) i s :
  runWatcher <$> alter (λ r, {| runContext := runContext r;
                                runConfig := runConfig r;
                                runWatcher := runWatcher r;
                                settlement := s |}) i l
  = runWatcher <$> l.
Proof.
  revert i. induction l as [|x l IH]; intros [|i]; simpl; try done.
  f_equal. apply IH.
Qed.

Lemma tokensApart_frame st st' :
  runWatcher <$> runs st' = runWatcher <$> runs st →
  length (watchers st) ≤ length (watchers st') →
  tokensApart st → tokensApart st'.
Proof.
  intros Hruns Hlen [Hnd Hall]. split; [by rewrite Hruns|].
  intros r Hr.
  assert (runWatcher r ∈ runWatcher <$> runs st) as Hin.
  { rewrite <- Hruns. by apply list_elem_of_fmap_2. }
  apply list_elem_of_fmap in Hin as (r0 & Heq & Hr0).
  destruct (Hall r0 Hr0) as (w & Hw & Hlt).
  exists w. split; [congruence|lia].
Qed.

Lemma startRun_tokensApart overrideConfig st :
  tokensApart st → tokensApart (startRun X overrideConfig st).1.
Proof.
  intros Ht. destruct (isRunning st) eqn:Hrun.
  - by rewrite startRun_running.
  - destruct (startRun_idle X overrideConfig st Hrun)
      as (_ & _ & Hws & Hrs & _).
    destruct Ht as [Hnd Hall]. split.
    + rewrite Hrs, fmap_app. simpl. apply NoDup_app. split; [done|].
      split; [|apply NoDup_singleton].
      intros o Ho ->%list_elem_of_singleton.
      apply list_elem_of_fmap in Ho as (r0 & Heq & Hr0).
      destruct (Hall r0 Hr0) as (w & Hw & Hlt).
      rewrite Hw in Heq. injection Heq as Heq. lia.
    + intros r. rewrite Hrs, Hws, length_app. simpl.
      intros [Hr| ->%list_elem_of_singleton]%elem_of_app.
      * destruct (Hall r Hr) as (w & Hw & Hlt). exists w. split; [done|lia].
      * eexists. split; [done|]. simpl. lia.
Qed.

(** Case analysis on the conditions that the state in the goal hangs on,
    remembering each outcome. *)
Ltac cases :=
  cbv zeta;
  repeat match goal with
         | |- _ (if ?b then _ else _) => destruct b eqn:?
         | |- _ (match ?o with Some _ => _ | None => _ end) => destruct o eqn:?
         end.

Lemma onKeypress_tokensApart key st :
  tokensApart st → tokensApart (onKeypress X key st).
Proof.
  intros Ht. unfold onKeypress. cases;
    first
      [ exact Ht
      | apply startRun_tokensApart;
        refine (tokensApart_frame _ _ _ _ Ht);
        [reflexivity|apply Nat.eq_le_incl; reflexivity]
      | refine (tokensApart_frame _ _ _ _ Ht);
        [reflexivity
        |apply Nat.eq_le_incl;
         first [reflexivity | symmetry; apply length_alter]] ].
Qed.

Lemma onKeypress_healthy key st :
  editable st → healthy st → healthy (onKeypress X key st).
Proof.
  intros He Hh. unfold onKeypress. cases;
    try (by right);
    try exact Hh;
    try (unfold healthy;
         rewrite (proj1 (proj2 (proj2 (startRun_frame _ _)))); exact Hh).
  match goal with
  | Hmode : isEnteringPattern st = true, Hnone : currentPattern st = None |- _ =>
      destruct (He Hmode) as [_ [s Hs]]; congruence
  end.
Qed.

Lemma onKeypress_editable key st :
  consistent st → editable st → editable (onKeypress X key st).
Proof.
  intros Hc He. unfold onKeypress. cases;
    try exact He;
    try (intros Hent; destruct (He Hent) as [Hidle Hsome]; split;
         [exact Hidle | first [exact Hsome | by eexists]]);
    try (intros Hent; rewrite (proj1 (startRun_frame _ _)) in Hent;
         simpl in Hent; congruence).
  - intros Hent. discriminate Hent.
  - intros _. split; [|by eexists].
    change (isRunning st = false).
    destruct (isRunning st) eqn:Hrun; [|done].
    destruct Hc as [Htok _]. destruct (Htok Hrun) as (w & Hw & _).
    match goal with
    | Habort : _ && _ && negb _ = false, HP : (key =? _)%string = true |- _ =>
        apply String.eqb_eq in HP; subst key;
        rewrite Hw in Habort;
        apply andb_false_iff in Habort as [Habort|Habort];
        [discriminate Habort|];
        apply negb_false_iff, Z.eqb_eq in Habort;
        exfalso; revert Habort; apply indexOf_found;
        repeat constructor
    end.
Qed.

Lemma onChange_sound hasteFS moduleMap st :
  sound st → sound (onChange X hasteFS moduleMap st).
Proof.
  intros (Hc & He & Hh & Ht). split; [by apply onChange_consistent|].
  unfold onChange. cbv zeta. split; [|split].
  - intros Hent. rewrite (proj1 (startRun_frame _ _)) in Hent.
    discriminate Hent.
  - unfold healthy. rewrite (proj1 (proj2 (proj2 (startRun_frame _ _)))).
    exact Hh.
  - apply startRun_tokensApart.
    refine (tokensApart_frame _ _ _ _ Ht);
      [reflexivity|apply Nat.eq_le_incl; reflexivity].
Qed.

(** What the completion callback does to the variables. *)
Lemma onComplete_effects results st :
  let st' := onComplete X results st in
  isRunning st' = false
  ∧ hasSnapshotFailure st' = snapshot_failure results
  ∧ testWatcher st' = Some (length (watchers st))
  ∧ watchers st' = watchers st ++ [TestWatcher.new true]
  ∧ runs st' = runs st
  ∧ isEnteringPattern st' = isEnteringPattern st
  ∧ currentPattern st' = currentPattern st
  ∧ process st' = process st
  ∧ argv st' = argv st
  ∧ stderr st' = stderr st
  ∧ pipe st'
    = pipe st ++ (if displayHelp st
                  then [usage (colors X) (argv st) (snapshot_failure results) nl]
                  else [])
  ∧ displayHelp st'
    = (if displayHelp st then negb (truthy (JEST_HIDE_USAGE X)) else false).
Proof.
  unfold onComplete. simpl. destruct (displayHelp st) eqn:Hd; simpl;
    rewrite ?app_nil_r; done.
Qed.

Lemma succeed_sound st i results :
  sound st → isPending i st = true →
  sound (settle i Fulfilled (onComplete X results st)).
Proof.
  intros (Hc & He & Hh & Ht) Hp.
  split; [by apply onComplete_settle_consistent|].
  destruct (onComplete_effects results st)
    as (Hrun & _ & _ & Hws & Hruns & Hmode & Hpat & Hproc & _).
  split; [|split].
  - intros Hent. simpl in Hent. rewrite Hmode in Hent.
    destruct (He Hent) as [_ Hsome]. simpl. by rewrite Hrun, Hpat.
  - unfold healthy. simpl. by rewrite Hproc.
  - refine (tokensApart_frame _ _ _ _ Ht).
    + simpl. by rewrite fmap_runWatcher_settle, Hruns.
    + simpl. rewrite Hws, length_app. lia.
Qed.

Lemma fail_sound st i error :
  sound st → isPending i st = true →
  sound (onRejected X error (settle i (Rejected error) st)).
Proof.
  intros (Hc & He & Hh & Ht) Hp. split; [|split; [exact He|split; [exact Hh|]]].
  - pose proof (step_consistent X st (Fail i error) Hc) as Hstep.
    unfold step in Hstep. rewrite Hp in Hstep.
    destruct Hh as [Hh|Hh]; rewrite Hh in Hstep; [exact Hstep|].
    destruct (onRejected_settle X st i error Hc Hp) as (Hnone & Hr & Hw & Hws).
    destruct Hc as [Hc _]. split.
    + rewrite Hr, Hw, Hws. exact Hc.
    + by rewrite Hnone.
  - refine (tokensApart_frame _ _ _ _ Ht).
    + simpl. by rewrite fmap_runWatcher_settle.
    + done.
Qed.

Lemma step_sound st ev : sound st → sound (step X st ev).
Proof.
  intros Hs. unfold step. destruct (process st); [|done..].
  destruct ev as [key|hasteFS moduleMap|i results|i error].
  - destruct (listening st); [|done].
    destruct Hs as (Hc & He & Hh & Ht).
    split; [by apply onKeypress_consistent|].
    split; [by apply onKeypress_editable|].
    split; [by apply onKeypress_healthy|by apply onKeypress_tokensApart].
  - by apply onChange_sound.
  - destruct (isPending i st) eqn:Hp; [|done]. by apply succeed_sound.
  - destruct (isPending i st) eqn:Hp; [|done]. by apply fail_sound.
Qed.

Lemma steps_sound st evs : sound st → sound (steps X st evs).
Proof.
  revert st. induction evs as [|ev evs IH]; intros st Hs; [done|].
  simpl. apply IH. by apply step_sound.
Qed.

Lemma watch_sound config argv hasteContext raw :
  sound (watch X config argv hasteContext raw).
Proof.
  split; [apply watch_consistent|]. unfold watch. cbv zeta.
  split; [|split].
  - intros Hent. rewrite (proj1 (startRun_frame _ _)) in Hent.
    discriminate Hent.
  - left. by rewrite (proj1 (proj2 (proj2 (startRun_frame _ _)))).
  - apply startRun_tokensApart. split; [constructor|].
    intros r Hr. by apply elem_of_nil in Hr.
Qed.

Lemma reachable_sound st : reachable X st → sound st.
Proof.
  intros (config & argv & hasteContext & raw & evs & ->).
  apply steps_sound, watch_sound.
Qed.

(** *** The usage banner after a run *)

Lemma startRun_completedOnce overrideConfig st :
  completedOnce (startRun X overrideConfig st).1 = completedOnce st.
Proof.
  destruct (isRunning st) eqn:Hrun; [by rewrite startRun_running|].
  destruct (startRun_idle X overrideConfig st Hrun) as (_ & _ & _ & Hrs & _).
  unfold completedOnce. rewrite Hrs, existsb_app. simpl.
  by rewrite !orb_false_r.
Qed.

Lemma existsb_fulfilled_settle (l : list Run) i r s :
  l !! i = Some r → pending r = true →
  existsb fulfilled
    (alter (λ r, {| runContext := runContext r;
                    runConfig := runConfig r;
                    runWatcher := runWatcher r;
                    settlement := s |}) i l)
  = existsb fulfilled l
    || match s with Fulfilled => true | _ => false end.
Proof.
  revert i. induction l as [|x l IH]; intros [|i] Hi Hp; simpl in *;
    try done.
  - injection Hi as ->. unfold pending in Hp. unfold fulfilled at 1 3. simpl.
    destruct (settlement r); try done. by destruct s, (existsb fulfilled l).
  - rewrite <- orb_assoc. f_equal. by apply IH.
Qed.

Lemma bannerRule_frame st st' :
  displayHelp st' = displayHelp st → runs st' = runs st →
  bannerRule X st → bannerRule X st'.
Proof. unfold bannerRule, completedOnce. by intros -> ->. Qed.

Lemma startRun_bannerRule overrideConfig st :
  bannerRule X st → bannerRule X (startRun X overrideConfig st).1.
Proof.
  unfold bannerRule. rewrite startRun_completedOnce.
  by rewrite (proj1 (proj2 (proj2 (proj2 (proj2 (startRun_frame _ _)))))).
Qed.

Lemma onKeypress_bannerRule key st :
  bannerRule X st → bannerRule X (onKeypress X key st).
Proof.
  intros Hb. unfold onKeypress. cases;
    first
      [ exact Hb
      | apply startRun_bannerRule;
        refine (bannerRule_frame _ _ _ _ Hb); reflexivity
      | refine (bannerRule_frame _ _ _ _ Hb); reflexivity ].
Qed.

Lemma step_bannerRule st ev :
  bannerRule X st → bannerRule X (step X st ev).
Proof.
  intros Hb. unfold step. destruct (process st); [|done..].
  destruct ev as [key|hasteFS moduleMap|i results|i error].
  - destruct (listening st); [|done]. by apply onKeypress_bannerRule.
  - unfold onChange. cbv zeta. apply startRun_bannerRule.
    refine (bannerRule_frame _ _ _ _ Hb); reflexivity.
  - destruct (isPending i st) eqn:Hp; [|done].
    destruct (isPending_active _ _ Hp) as (r & Hi & Hpr & _).
    destruct (onComplete_effects results st)
      as (_ & _ & _ & _ & Hruns & _ & _ & _ & _ & _ & _ & Hhelp).
    unfold bannerRule, completedOnce, onFulfilled in *. simpl.
    rewrite Hruns, (existsb_fulfilled_settle _ i r) by done.
    rewrite orb_true_r, Hhelp, Hb.
    destruct (existsb fulfilled (runs st)); [|done].
    by destruct (truthy (JEST_HIDE_USAGE X)).
  - destruct (isPending i st) eqn:Hp; [|done].
    destruct (isPending_active _ _ Hp) as (r & Hi & Hpr & _).
    unfold bannerRule, completedOnce in *. simpl.
    rewrite (existsb_fulfilled_settle _ i r) by done.
    by rewrite orb_false_r.
Qed.

Lemma reachable_bannerRule st : reachable X st → bannerRule X st.
Proof.
  intros (config & argv & hasteContext & raw & evs & ->).
  assert (bannerRule X (watch X config argv hasteContext raw)) as Hinit.
  { unfold watch. cbv zeta. by apply startRun_bannerRule. }
  generalize dependent (watch X config argv hasteContext raw).
  induction evs as [|ev evs IH]; intros st Hb; [done|].
  simpl. apply IH. by apply step_bannerRule.
Qed.

(** *** Editing the buffer *)

Lemma length_snoc (s : string) (a : ascii) :
  String.length (s +:+ String a "") = S (String.length s).
Proof. induction s as [|x s IH]; simpl; [done|by rewrite IH]. Qed.

Lemma substring_snoc (s : string) (a : ascii) :
  substring 0 (String.length s) (s +:+ String a "") = s.
Proof. induction s as [|x s IH]; simpl; [done|by rewrite IH]. Qed.

Lemma slice_0_m1_app (s c : string) :
  String.length c = 1 → slice_0_m1 (s +:+ c) = s.
Proof.
  intros Hc. unfold slice_0_m1.
  destruct c as [|a [|b c]]; simpl in Hc; try done. clear Hc.
  rewrite length_snoc. simpl. rewrite Nat.sub_0_r. apply substring_snoc.
Qed.

(** *** Keys in pattern mode *)

Lemma onKeypress_typing st key :
  isEnteringPattern st = true →
  key ∉ KEYS.all (keys X) →
  onKeypress X key st
  = writeCurrentPattern X
      (set_currentPattern
         (Some (toText (currentPattern st) +:+ hexToString X key)) st).
Proof.
  intros Hmode Hkey. unfold KEYS.all in Hkey.
  rewrite !not_elem_of_cons in Hkey. destruct_and!.
  unfold onKeypress. rewrite Hmode. cbv zeta. decide_keys. reflexivity.
Qed.

Lemma onKeypress_backspace st s :
  KEYS.distinct (keys X) →
  isEnteringPattern st = true →
  currentPattern st = Some s →
  onKeypress X (KEYS.BACKSPACE (keys X)) st
  = writeCurrentPattern X (set_currentPattern (Some (slice_0_m1 s)) st).
Proof.
  intros Hd Hmode Hs. key_facts Hd.
  unfold onKeypress. rewrite Hmode, Hs. cbv zeta. decide_keys. reflexivity.
Qed.

Lemma truthy_cons (a : ascii) (s : string) : truthy (Some (String a s)) = true.
Proof. done. Qed.


End Controller.

(** The token of a run is never the token of another run, and both are
    allocated: a run that started later has its own token, so setting
    the flag of one token leaves the token of every other run as it
    was. *)
Theorem tokens_never_reused (X : Externals) (st : State) (i j : nat)
    (ri rj : Run) :
  reachable X st →
  runs st !! i = Some ri →
  runs st !! j = Some rj →
  i ≠ j →
  ∃ wi wj,
    runWatcher ri = Some wi ∧ runWatcher rj = Some wj
    ∧ wi ≠ wj
    ∧ wi < length (watchers st) ∧ wj < length (watchers st)
    ∧ ∀ b, watchers (TestWatcher_setState wi b st) !! wj
           = watchers st !! wj.
Proof.
  intros Hreach Hi Hj Hij.
  destruct (reachable_sound X st Hreach) as (_ & _ & _ & Hnd & Hall).
  destruct (Hall ri (list_elem_of_lookup_2 _ _ _ Hi)) as (wi & Hwi & Hlti).
  destruct (Hall rj (list_elem_of_lookup_2 _ _ _ Hj)) as (wj & Hwj & Hltj).
  exists wi, wj. split; [done|]. split; [done|].
  assert (wi ≠ wj) as Hne.
  { intros ->. apply Hij.
    apply (NoDup_lookup _ i j (Some wj) Hnd);
      rewrite list_lookup_fmap; [by rewrite Hi, <- Hwi|by rewrite Hj, <- Hwj]. }
  split; [done|]. split; [done|]. split; [done|].
  intros b. simpl. by apply list_lookup_alter_ne.
Qed.

Lemma tokens_never_reused_witness :
  (runs Demo.editing !! 0) ≫= runWatcher = Some 0
  ∧ (runs Demo.editing !! 1) ≫= runWatcher = Some 2
  ∧ watchers (TestWatcher_setState 0 true Demo.editing) !! 2
    = watchers Demo.editing !! 2.
Proof.
  assert (reachable Demo.externals Demo.editing) as Hreach.
  { exists ∅, Demo.argv, (VObject 0), true,
      [ Succeed 0 {| snapshot_failure := false |};
        Keypress "70"; Keypress "61"; Keypress "0d";
        Succeed 1 {| snapshot_failure := false |};
        Keypress "70"; Keypress "62"; Keypress "63" ].
    reflexivity. }
  assert (runs Demo.editing !! 0
          = Some {| runContext := VObject 0; runConfig := ∅;
                    runWatcher := Some 0; settlement := Fulfilled |}) as H0.
  { vm_compute. reflexivity. }
  assert (runs Demo.editing !! 1
          = Some {| runContext := VObject 0; runConfig := ∅;
                    runWatcher := Some 2; settlement := Fulfilled |}) as H1.
  { vm_compute. reflexivity. }
  destruct (tokens_never_reused Demo.externals Demo.editing 0 1 _ _
              Hreach H0 H1)
    as (wi & wj & Hwi & Hwj & _ & _ & _ & Hkeep); [lia|].
  injection Hwi as <-. injection Hwj as <-.
  split; [vm_compute; reflexivity|]. split; [vm_compute; reflexivity|].
  apply Hkeep.
Defined.

(** Pattern mode and a run exclude each other: in pattern mode the
    running flag is clear, no run is active, and the edit buffer is a
    string. *)
Theorem pattern_mode_excludes_running (X : Externals) (st : State) :
  reachable X st →
  isEnteringPattern st = true →
  isRunning st = false
  ∧ activeRuns st = []
  ∧ is_Some (currentPattern st).
Proof.
  intros Hreach Hmode.
  destruct (reachable_sound X st Hreach) as (Hc & He & _).
  destruct (He Hmode) as [Hidle Hsome].
  split; [done|]. split; [by apply consistent_idle|done].
Qed.

Lemma pattern_mode_excludes_running_witness :
  isEnteringPattern Demo.editing = true
  ∧ isRunning Demo.editing = false
  ∧ activeRuns Demo.editing = [].
Proof.
  assert (reachable Demo.externals Demo.editing) as Hreach.
  { exists ∅, Demo.argv, (VObject 0), true,
      [ Succeed 0 {| snapshot_failure := false |};
        Keypress "70"; Keypress "61"; Keypress "0d";
        Succeed 1 {| snapshot_failure := false |};
        Keypress "70"; Keypress "62"; Keypress "63" ].
    reflexivity. }
  assert (isEnteringPattern Demo.editing = true) as Hmode.
  { vm_compute. reflexivity. }
  destruct (pattern_mode_excludes_running Demo.externals Demo.editing
              Hreach Hmode) as (Hidle & Hnone & _).
  split; [vm_compute; reflexivity|]. split; [exact Hidle|exact Hnone].
Defined.



(** When no run is going on, [startRun] starts exactly one: it allocates
    a token that is not interrupted and is the token of no earlier run,
    writes the clear sequence and the pre-run message, and hands the run
    the current haste context and the configuration with the override on
    top.  The override is for this run only: the configuration that the
    controller keeps is as before. *)
Theorem startRun_starts_fresh_run (X : Externals) (st : State)
    (overrideConfig : Config) :
  reachable X st →
  isRunning st = false →
  let st' := (startRun X overrideConfig st).1 in
  let w := length (watchers st) in
  let r := {| runContext := hasteContext st;
              runConfig := overrideConfig ∪ config st;
              runWatcher := Some w;
              settlement := Pending |} in
  (startRun X overrideConfig st).2 = Some (length (runs st))
  ∧ runs st' = runs st ++ [r]
  ∧ activeRuns st' = [r]
  ∧ isRunning st' = true
  ∧ testWatcher st' = Some w
  ∧ watchers st' !! w = Some (TestWatcher.new true)
  ∧ (∀ r0, r0 ∈ runs st → runWatcher r0 ≠ Some w)
  ∧ pipe st' = pipe st ++ [CLEAR X] ++ preRunMessage_print X
  ∧ config st' = config st
  ∧ (∀ k v, overrideConfig !! k = Some v → runConfig r !! k = Some v)
  ∧ (∀ k, overrideConfig !! k = None → runConfig r !! k = config st !! k).
Proof.
  intros Hreach Hidle.
  destruct (reachable_sound X st Hreach) as (Hc & _ & _ & _ & Hall).
  pose proof (consistent_idle _ Hc Hidle) as Hnone.
  unfold startRun. rewrite Hidle. simpl.
  split; [done|]. split; [done|]. split.
  { unfold activeRuns in *. simpl. by rewrite List.filter_app, Hnone. }
  split; [done|]. split; [done|]. split.
  { by rewrite lookup_app_r, Nat.sub_diag. }
  split.
  { intros r0 Hr0 Heq. destruct (Hall r0 Hr0) as (w0 & Hw0 & Hlt).
    rewrite Hw0 in Heq. injection Heq as Heq. lia. }
  split; [by rewrite <- app_assoc|]. split; [done|]. split.
  - intros k v Hk. by apply lookup_union_Some_l.
  - intros k Hk. by apply lookup_union_r.
Qed.

Lemma startRun_starts_fresh_run_witness :
  isRunning idle = false
  ∧ length (runs idle) = 1
  ∧ (runConfig
       <$> runs (startRun Demo.externals
                   {[ "updateSnapshot" := VBool true ]} idle).1 !! 1)
    = Some {[ "updateSnapshot" := VBool true ]}
  ∧ config (startRun Demo.externals
              {[ "updateSnapshot" := VBool true ]} idle).1 = ∅.
Proof.
  assert (reachable Demo.externals idle) as Hreach.
  { exists ∅, Demo.argv, (VObject 0), true,
      [Succeed 0 {| snapshot_failure := true |}].
    reflexivity. }
  assert (isRunning idle = false) as Hidle.
  { vm_compute. reflexivity. }
  destruct (startRun_starts_fresh_run Demo.externals idle
              {[ "updateSnapshot" := VBool true ]} Hreach Hidle)
    as (_ & Hruns & _ & _ & _ & _ & _ & _ & Hconfig & _).
  split; [exact Hidle|]. split; [vm_compute; reflexivity|].
  split.
  - rewrite Hruns. vm_compute. reflexivity.
  - rewrite Hconfig. vm_compute. reflexivity.
Defined.

(** When a run succeeds the controller is ready for the next one: the
    running flag is clear, no run is active, the outcome of the snapshots
    is recorded, the token variable refers to a new token that is not
    interrupted, and the next [startRun] starts a run. *)
Theorem success_resets_controller (X : Externals) (st : State) (i : nat)
    (results : Results) :
  reachable X st →
  process st = Alive →
  isPending i st = true →
  let st' := step X st (Succeed i results) in
  isRunning st' = false
  ∧ activeRuns st' = []
  ∧ settlement <$> runs st' !! i = Some Fulfilled
  ∧ hasSnapshotFailure st' = snapshot_failure results
  ∧ testWatcher st' = Some (length (watchers st))
  ∧ watchers st' = watchers st ++ [TestWatcher.new true]
  ∧ stderr st' = stderr st
  ∧ ∀ overrideConfig,
      (startRun X overrideConfig st').2 = Some (length (runs st)).
Proof.
  intros Hreach Halive Hp. simpl. unfold step. rewrite Halive, Hp.
  destruct (reachable_sound X st Hreach) as (Hc & _).
  pose proof (onComplete_settle_consistent X st i results Hc Hp) as Hc'.
  destruct (onComplete_effects X results st)
    as (Hrun & Hfail & Htok & Hws & Hruns & _ & _ & _ & _ & Herr & _).
  destruct (isPending_active _ _ Hp) as (r & Hi & _).
  unfold onFulfilled.
  assert (isRunning (settle i Fulfilled (onComplete X results st)) = false)
    as Hidle by exact Hrun.
  split; [done|]. split; [by apply consistent_idle|]. split.
  { simpl. by rewrite Hruns, list_lookup_alter_eq, Hi. }
  split; [done|]. split; [done|]. split; [done|]. split; [done|].
  intros overrideConfig. unfold startRun. rewrite Hidle. simpl.
  by rewrite Hruns, length_alter.
Qed.

Lemma success_resets_controller_witness :
  let st' := step Demo.externals Demo.started
               (Succeed 0 {| snapshot_failure := true |}) in
  isRunning Demo.started = true
  ∧ isRunning st' = false
  ∧ hasSnapshotFailure st' = true
  ∧ testWatcher st' = Some 1.
Proof.
  cbv zeta.
  assert (reachable Demo.externals Demo.started) as Hreach.
  { exists ∅, Demo.argv, (VObject 0), true, []. reflexivity. }
  assert (process Demo.started = Alive) as Halive.
  { vm_compute. reflexivity. }
  assert (isPending 0 Demo.started = true) as Hp.
  { vm_compute. reflexivity. }
  destruct (success_resets_controller Demo.externals Demo.started 0
              {| snapshot_failure := true |} Hreach Halive Hp)
    as (Hidle & _ & _ & Hfail & Htok & _).
  split; [vm_compute; reflexivity|]. split; [exact Hidle|].
  split; [exact Hfail|]. rewrite Htok. vm_compute. reflexivity.
Defined.

(** A file change always leaves pattern mode, empties the current
    pattern and replaces the haste context and the search source.  When
    no run is going on it starts one on the new context with the plain
    configuration; when one is going on the change starts nothing and
    queues nothing, and the run in progress keeps the context it was
    started with. *)
Theorem file_change_restarts_or_is_dropped (X : Externals) (st : State)
    (hasteFS moduleMap : Value) :
  let context := createHasteContext X (config st) hasteFS moduleMap in
  let st' := onChange X hasteFS moduleMap st in
  isEnteringPattern st' = false
  ∧ currentPattern st' = Some ""%string
  ∧ hasteContext st' = context
  ∧ searchSource st'
    = {| sourceContext := context; sourceConfig := config st |}
  ∧ argv st' = argv st
  ∧ (isRunning st = true →
     runs st' = runs st ∧ pipe st' = pipe st
     ∧ testWatcher st' = testWatcher st ∧ watchers st' = watchers st)
  ∧ (isRunning st = false →
     isRunning st' = true
     ∧ runs st'
       = runs st ++ [ {| runContext := context;
                         runConfig := config st;
                         runWatcher := Some (length (watchers st));
                         settlement := Pending |} ]).
Proof.
  cbv zeta. unfold onChange. cbv zeta.
  match goal with
  | |- context [startRun X ∅ ?s] => set (st2 := s)
  end.
  destruct (startRun_frame X ∅ st2)
    as (Hmode & Hpat & _ & Hargv & _ & _ & Hctx & _).
  assert (searchSource (startRun X ∅ st2).1 = searchSource st2) as Hsrc.
  { unfold startRun. by destruct (isRunning st2). }
  split; [by rewrite Hmode|]. split; [by rewrite Hpat|].
  split; [by rewrite Hctx|]. split; [by rewrite Hsrc|].
  split; [by rewrite Hargv|]. split.
  - intros Hrun. by rewrite (startRun_running X ∅ st2 Hrun).
  - intros Hidle.
    destruct (startRun_idle X ∅ st2 Hidle) as (Hrun & _ & _ & Hruns & _).
    split; [exact Hrun|]. rewrite Hruns. subst st2. simpl.
    by rewrite (left_id_L ∅ (∪)).
Qed.

Lemma file_change_restarts_or_is_dropped_witness :
  length (runs (onChange Demo.externals (VObject 5) VNull Demo.started)) = 1
  ∧ hasteContext (onChange Demo.externals (VObject 5) VNull Demo.started)
    = VObject 5
  ∧ length (runs (onChange Demo.externals (VObject 5) VNull idle)) = 2.
Proof.
  destruct (file_change_restarts_or_is_dropped Demo.externals Demo.started
              (VObject 5) VNull) as (_ & _ & Hctx & _ & _ & Hbusy & _).
  destruct (file_change_restarts_or_is_dropped Demo.externals idle
              (VObject 5) VNull) as (_ & _ & _ & _ & _ & _ & Hidle).
  assert (isRunning Demo.started = true) as Hrun.
  { vm_compute. reflexivity. }
  assert (isRunning idle = false) as Hnot.
  { vm_compute. reflexivity. }
  destruct (Hbusy Hrun) as (Hruns & _). destruct (Hidle Hnot) as (_ & Hnew).
  split; [rewrite Hruns; vm_compute; reflexivity|].
  split; [rewrite Hctx; vm_compute; reflexivity|].
  rewrite Hnew, length_app. vm_compute. reflexivity.
Defined.

(** In pattern mode a key that is none of the named keys appends its
    character to the edit buffer, and a backspace takes the last
    character away again: typing a one-character key and then backspace
    gives the buffer back.  A backspace on the empty buffer leaves it
    empty.  Neither key leaves pattern mode or touches the runs. *)
Theorem typed_character_then_backspace (X : Externals) (st : State)
    (key s : string) :
  KEYS.distinct (keys X) →
  isEnteringPattern st = true →
  currentPattern st = Some s →
  key ∉ KEYS.all (keys X) →
  String.length (hexToString X key) = 1 →
  let typed := onKeypress X key st in
  let erased := onKeypress X (KEYS.BACKSPACE (keys X)) typed in
  currentPattern typed = Some (s +:+ hexToString X key)
  ∧ currentPattern erased = Some s
  ∧ isEnteringPattern erased = true
  ∧ runs erased = runs st
  ∧ process erased = process st
  ∧ (s = ""%string →
     currentPattern (onKeypress X (KEYS.BACKSPACE (keys X)) st)
     = Some ""%string).
Proof.
  intros Hd Hmode Hs Hkey Hlen. cbv zeta.
  rewrite (onKeypress_typing X st key Hmode Hkey), Hs.
  rewrite (onKeypress_backspace X _ (s +:+ hexToString X key) Hd);
    [|exact Hmode|reflexivity].
  rewrite (slice_0_m1_app _ _ Hlen).
  split; [reflexivity|]. split; [reflexivity|]. split; [exact Hmode|].
  split; [reflexivity|]. split; [reflexivity|].
  intros ->. by rewrite (onKeypress_backspace X st "" Hd Hmode Hs).
Qed.

Lemma typed_character_then_backspace_witness :
  currentPattern Demo.editing = Some "bc"%string
  ∧ currentPattern (onKeypress Demo.externals "64" Demo.editing)
    = Some "bcd"%string
  ∧ currentPattern
      (onKeypress Demo.externals "7f"
         (onKeypress Demo.externals "64" Demo.editing))
    = Some "bc"%string.
Proof.
  assert (KEYS.distinct (keys Demo.externals)) as Hd.
  { unfold KEYS.distinct. apply (bool_decide_unpack _). vm_compute. exact I. }
  assert (isEnteringPattern Demo.editing = true) as Hmode.
  { vm_compute. reflexivity. }
  assert (currentPattern Demo.editing = Some "bc"%string) as Hs.
  { vm_compute. reflexivity. }
  assert ("64"%string ∉ KEYS.all (keys Demo.externals)) as Hkey.
  { apply (bool_decide_unpack _). vm_compute. exact I. }
  destruct (typed_character_then_backspace Demo.externals Demo.editing
              "64" "bc" Hd Hmode Hs Hkey eq_refl)
    as (Htyped & Herased & _).
  split; [exact Hs|]. split; [exact Htyped|exact Herased].
Defined.

(** In pattern mode only the interrupt keys and the enter key reach
    beyond the prompt: every other key, the letters q, u, a, o and p
    among them, leaves the runs, the running flag, the tokens, [argv],
    the error stream and the process as they are, and every such key but
    escape stays in pattern mode. *)
Theorem pattern_mode_keys_only_edit (X : Externals) (st : State)
    (key : string) :
  isEnteringPattern st = true →
  is_Some (currentPattern st) →
  key ∉ [KEYS.CONTROL_C (keys X); KEYS.CONTROL_D (keys X);
         KEYS.ENTER (keys X)] →
  let st' := onKeypress X key st in
  runs st' = runs st
  ∧ isRunning st' = isRunning st
  ∧ testWatcher st' = testWatcher st
  ∧ watchers st' = watchers st
  ∧ argv st' = argv st
  ∧ stderr st' = stderr st
  ∧ process st' = process st
  ∧ (key ≠ KEYS.ESCAPE (keys X) → isEnteringPattern st' = true).
Proof.
  intros Hmode [s Hs] Hkey. rewrite !not_elem_of_cons in Hkey.
  destruct Hkey as (Hc & Hd & He & _). cbv zeta.
  unfold onKeypress. cbv zeta. rewrite Hmode, Hs.
  rewrite (proj2 (String.eqb_neq _ _) Hc), (proj2 (String.eqb_neq _ _) Hd),
    (proj2 (String.eqb_neq _ _) He).
  cbn [orb].
  destruct (key =? KEYS.ESCAPE (keys X))%string eqn:Hesc.
  { apply String.eqb_eq in Hesc. repeat split; try reflexivity. done. }
  destruct ((key =? KEYS.ARROW_DOWN (keys X))%string
            || (key =? KEYS.ARROW_LEFT (keys X))%string
            || (key =? KEYS.ARROW_RIGHT (keys X))%string
            || (key =? KEYS.ARROW_UP (keys X))%string).
  { repeat split; try reflexivity. intros _. exact Hmode. }
  destruct (key =? KEYS.BACKSPACE (keys X))%string;
    repeat split; try reflexivity; intros _; exact Hmode.
Qed.

Lemma pattern_mode_keys_only_edit_witness :
  process (onKeypress Demo.externals "71" Demo.editing) = Alive
  ∧ currentPattern (onKeypress Demo.externals "71" Demo.editing)
    = Some "bcq"%string
  ∧ length (runs (onKeypress Demo.externals "75" Demo.editing)) = 2.
Proof.
  assert (isEnteringPattern Demo.editing = true) as Hmode.
  { vm_compute. reflexivity. }
  assert (is_Some (currentPattern Demo.editing)) as Hs.
  { exists "bc"%string. vm_compute. reflexivity. }
  destruct (pattern_mode_keys_only_edit Demo.externals Demo.editing "71"
              Hmode Hs) as (_ & _ & _ & _ & _ & _ & Hproc & _).
  { apply (bool_decide_unpack _). vm_compute. exact I. }
  destruct (pattern_mode_keys_only_edit Demo.externals Demo.editing "75"
              Hmode Hs) as (Hruns & _).
  { apply (bool_decide_unpack _). vm_compute. exact I. }
  split; [rewrite Hproc; vm_compute; reflexivity|].
  split; [vm_compute; reflexivity|].
  rewrite Hruns. vm_compute. reflexivity.
Defined.

(** The enter key in pattern mode commits the edit buffer: it leaves
    pattern mode, hands the buffer to [setWatchMode] as the one pattern
    of mode "watch", and, since pattern mode and a run exclude each
    other, always starts a run, on the plain configuration. *)
Theorem enter_in_pattern_mode_commits (X : Externals) (st : State) :
  KEYS.distinct (keys X) →
  reachable X st →
  isEnteringPattern st = true →
  let st' := onKeypress X (KEYS.ENTER (keys X)) st in
  let committed :=
    setWatchMode X (argv st) "watch" (Some [currentPattern st]) in
  isEnteringPattern st' = false
  ∧ argv st' = committed
  ∧ currentPattern st' = currentPattern st
  ∧ isRunning st' = true
  ∧ runs st'
    = runs st ++ [ {| runContext := hasteContext st;
                      runConfig := config st;
                      runWatcher := Some (length (watchers st));
                      settlement := Pending |} ].
Proof.
  intros Hd Hreach Hmode.
  destruct (reachable_sound X st Hreach) as (_ & Hedit & _).
  destruct (Hedit Hmode) as [Hidle _].
  key_facts Hd. cbv zeta. unfold onKeypress. cbv zeta. rewrite Hmode.
  decide_keys. cbn [orb].
  match goal with
  | |- context [startRun X ∅ ?s] => set (st2 := s)
  end.
  destruct (startRun_frame X ∅ st2) as (Hm & Hpat & _ & Hargv & _).
  destruct (startRun_idle X ∅ st2 Hidle) as (Hrun & _ & _ & Hruns & _).
  split; [by rewrite Hm|]. split; [by rewrite Hargv|].
  split; [by rewrite Hpat|]. split; [exact Hrun|].
  rewrite Hruns. subst st2. simpl. by rewrite (left_id_L ∅ (∪)).
Qed.

Lemma enter_in_pattern_mode_commits_witness :
  let st' := onKeypress Demo.externals "0d" Demo.editing in
  Argv.positional (argv Demo.editing) = [Some "a"%string]
  ∧ Argv.positional (argv st') = [Some "bc"%string]
  ∧ length (runs st') = 3.
Proof.
  cbv zeta.
  assert (KEYS.distinct (keys Demo.externals)) as Hd.
  { unfold KEYS.distinct. apply (bool_decide_unpack _). vm_compute. exact I. }
  assert (reachable Demo.externals Demo.editing) as Hreach.
  { exists ∅, Demo.argv, (VObject 0), true,
      [ Succeed 0 {| snapshot_failure := false |};
        Keypress "70"; Keypress "61"; Keypress "0d";
        Succeed 1 {| snapshot_failure := false |};
        Keypress "70"; Keypress "62"; Keypress "63" ].
    reflexivity. }
  assert (isEnteringPattern Demo.editing = true) as Hmode.
  { vm_compute. reflexivity. }
  destruct (enter_in_pattern_mode_commits Demo.externals Demo.editing
              Hd Hreach Hmode) as (_ & Hargv & _ & _ & Hruns).
  split; [vm_compute; reflexivity|].
  split; [vm_compute; reflexivity|].
  change (KEYS.ENTER (keys Demo.externals)) with "0d"%string in Hruns.
  rewrite Hruns, length_app. vm_compute. reflexivity.
Defined.


(** A run that succeeds is followed by the usage banner unless
    [JEST_HIDE_USAGE] is set and a run has completed before: without the
    variable every success prints the banner, with it only the first one
    does.  Nothing else is written on success. *)
Theorem usage_banner_after_runs (X : Externals) (st : State) (i : nat)
    (results : Results) :
  reachable X st →
  process st = Alive →
  isPending i st = true →
  displayHelp st
  = (if completedOnce st then negb (truthy (JEST_HIDE_USAGE X)) else true)
  ∧ pipe (step X st (Succeed i results))
    = pipe st
      ++ (if completedOnce st && truthy (JEST_HIDE_USAGE X) then []
          else [usage (colors X) (argv st) (snapshot_failure results) nl])
  ∧ completedOnce (step X st (Succeed i results)) = true.
Proof.
  intros Hreach Halive Hp.
  pose proof (reachable_bannerRule X st Hreach) as Hb.
  split; [exact Hb|].
  unfold step. rewrite Halive, Hp.
  destruct (onComplete_effects X results st)
    as (_ & _ & _ & _ & Hruns & _ & _ & _ & _ & _ & Hpipe & _).
  destruct (isPending_active _ _ Hp) as (r & Hi & Hpr & _).
  unfold onFulfilled. split.
  - change (pipe (settle i Fulfilled (onComplete X results st)))
      with (pipe (onComplete X results st)).
    rewrite Hpipe, Hb.
    by destruct (completedOnce st), (truthy (JEST_HIDE_USAGE X)).
  - unfold completedOnce. simpl.
    rewrite Hruns, (existsb_fulfilled_settle _ i r) by done.
    apply orb_true_r.
Qed.

Lemma usage_banner_after_runs_witness :
  length (pipe Demo.started) = 2
  ∧ length (pipe (step Demo.externals Demo.started
                    (Succeed 0 {| snapshot_failure := true |}))) = 3.
Proof.
  assert (reachable Demo.externals Demo.started) as Hreach.
  { exists ∅, Demo.argv, (VObject 0), true, []. reflexivity. }
  assert (process Demo.started = Alive) as Halive.
  { vm_compute. reflexivity. }
  assert (isPending 0 Demo.started = true) as Hp.
  { vm_compute. reflexivity. }
  destruct (usage_banner_after_runs Demo.externals Demo.started 0
              {| snapshot_failure := true |} Hreach Halive Hp)
    as (_ & Hpipe & _).
  split; [vm_compute; reflexivity|].
  rewrite Hpipe, length_app. vm_compute. reflexivity.
Defined.

(** Outside pattern mode and with no run going on, each key does what
    its name says: enter starts a run on the plain configuration; u
    starts one with [updateSnapshot] set on top of it, for that run
    only; a and o hand the mode to [setWatchMode] and start a run; p
    enters pattern mode with an empty buffer; q ends the process; the
    question mark writes the usage banner when [JEST_HIDE_USAGE] is set
    and nothing otherwise.  Only enter, u, a and o start a run. *)
Theorem idle_keys_do_their_action (X : Externals) (st : State) :
  KEYS.distinct (keys X) →
  isEnteringPattern st = false →
  isRunning st = false →
  let K := keys X in
  let run config :=
    {| runContext := hasteContext st; runConfig := config;
       runWatcher := Some (length (watchers st)); settlement := Pending |} in
  (runs (onKeypress X (KEYS.ENTER K) st) = runs st ++ [run (config st)]
   ∧ argv (onKeypress X (KEYS.ENTER K) st) = argv st)
  ∧ (runs (onKeypress X (KEYS.U K) st)
     = runs st ++ [run (<["updateSnapshot" := VBool true]> (config st))]
     ∧ argv (onKeypress X (KEYS.U K) st) = argv st
     ∧ config (onKeypress X (KEYS.U K) st) = config st)
  ∧ (runs (onKeypress X (KEYS.A K) st) = runs st ++ [run (config st)]
     ∧ argv (onKeypress X (KEYS.A K) st)
       = setWatchMode X (argv st) "watchAll" None)
  ∧ (runs (onKeypress X (KEYS.O K) st) = runs st ++ [run (config st)]
     ∧ argv (onKeypress X (KEYS.O K) st)
       = setWatchMode X (argv st) "watch" None)
  ∧ (isEnteringPattern (onKeypress X (KEYS.P K) st) = true
     ∧ currentPattern (onKeypress X (KEYS.P K) st) = Some ""%string
     ∧ runs (onKeypress X (KEYS.P K) st) = runs st)
  ∧ (process (onKeypress X (KEYS.Q K) st) = Exited 0
     ∧ runs (onKeypress X (KEYS.Q K) st) = runs st)
  ∧ (runs (onKeypress X (KEYS.QUESTION_MARK K) st) = runs st
     ∧ pipe (onKeypress X (KEYS.QUESTION_MARK K) st)
       = pipe st
         ++ (if truthy (JEST_HIDE_USAGE X)
             then [usage (colors X) (argv st) (hasSnapshotFailure st) nl]
             else [])).
Proof.
  intros Hd Hmode Hidle. key_facts Hd. cbv zeta.
  assert (∀ key,
            key ≠ KEYS.CONTROL_C (keys X) → key ≠ KEYS.CONTROL_D (keys X) →
            onKeypress X key st
            = if (key =? KEYS.Q (keys X))%string then process_exit 0 st
              else if (key =? KEYS.ENTER (keys X))%string
              then (startRun X ∅ st).1
              else if (key =? KEYS.U (keys X))%string
              then (startRun X {[ "updateSnapshot" := VBool true ]} st).1
              else if (key =? KEYS.A (keys X))%string
              then (startRun X ∅
                      (set_argv (setWatchMode X (argv st) "watchAll" None)
                         st)).1
              else if (key =? KEYS.O (keys X))%string
              then (startRun X ∅
                      (set_argv (setWatchMode X (argv st) "watch" None)
                         st)).1
              else if (key =? KEYS.P (keys X))%string
              then writeCurrentPattern X
                     (pipe_write (ansiEscapes.eraseScreen (ansi X))
                        (set_currentPattern (Some "")
                           (set_isEnteringPattern true st)))
              else if (key =? KEYS.QUESTION_MARK (keys X))%string
              then if truthy (JEST_HIDE_USAGE X)
                   then pipe_write
                          (usage (colors X) (argv st)
                             (hasSnapshotFailure st) nl) st
                   else st
              else st) as Hkey.
  { intros key Hc Hdd. unfold onKeypress. cbv zeta.
    rewrite Hmode, Hidle.
    rewrite (proj2 (String.eqb_neq _ _) Hc), (proj2 (String.eqb_neq _ _) Hdd).
    reflexivity. }
  assert (∀ overrideConfig st0,
            isRunning st0 = false →
            runs (startRun X overrideConfig st0).1
            = runs st0 ++ [ {| runContext := hasteContext st0;
                               runConfig := overrideConfig ∪ config st0;
                               runWatcher := Some (length (watchers st0));
                               settlement := Pending |} ]) as Hstart.
  { intros overrideConfig st0 H0.
    by destruct (startRun_idle X overrideConfig st0 H0)
      as (_ & _ & _ & Hruns & _). }
  repeat split; rewrite Hkey by congruence; decide_keys;
    rewrite ?Hstart by exact Hidle;
    rewrite ?(proj1 (proj2 (proj2 (proj2 (startRun_frame X _ _)))));
    rewrite ?(left_id_L ∅ (∪));
    rewrite <- ?insert_union_singleton_l;
    try reflexivity.
  - unfold startRun. by rewrite Hidle.
  - by destruct (truthy (JEST_HIDE_USAGE X)).
  - destruct (truthy (JEST_HIDE_USAGE X)); [done|]. simpl.
    by rewrite app_nil_r.
Qed.

Lemma idle_keys_do_their_action_witness :
  (runConfig <$> runs (onKeypress Demo.externals "75" idle) !! 1)
  = Some {[ "updateSnapshot" := VBool true ]}
  ∧ process (onKeypress Demo.externals "71" idle) = Exited 0
  ∧ Argv.watchAll (argv (onKeypress Demo.externals "61" idle)) = true.
Proof.
  assert (KEYS.distinct (keys Demo.externals)) as Hd.
  { unfold KEYS.distinct. apply (bool_decide_unpack _). vm_compute. exact I. }
  assert (isEnteringPattern idle = false) as Hmode.
  { vm_compute. reflexivity. }
  assert (isRunning idle = false) as Hidle.
  { vm_compute. reflexivity. }
  destruct (idle_keys_do_their_action Demo.externals idle Hd Hmode Hidle)
    as (_ & (Hu & _) & (_ & Ha) & _ & _ & (Hq & _) & _).
  split.
  - change (KEYS.U (keys Demo.externals)) with "75"%string in Hu.
    rewrite Hu. vm_compute. reflexivity.
  - split; [exact Hq|].
    change (KEYS.A (keys Demo.externals)) with "61"%string in Ha.
    rewrite Ha. vm_compute. reflexivity.
Defined.

End SessionFacts.

(** ** ReporterDispatcher: the remaining methods *)

Module LifecycleFacts.
Import ReporterDispatcher ReporterLifecycle.

(** *** Rejections in the file-level events *)

Lemma file_for_of_app body (pre post : list ReporterDispatcher.Reporter.t)
    (i : nat) (h : Heap) :
  ReporterDispatcher.for_of body i (pre ++ post) h
  = match ReporterDispatcher.for_of body i pre h with
    | (c1, h1, Return _) =>
        match ReporterDispatcher.for_of body (i + length pre) post h1 with
        | (c2, h2, r) => (c1 ++ c2, h2, r)
        end
    | (c1, h1, Throw e) => (c1, h1, Throw e)
    end.
Proof.
  revert i h. induction pre as [|x pre IH]; intros i h; simpl.
  - unfold ReporterDispatcher.ret. rewrite Nat.add_0_r.
    by destruct (ReporterDispatcher.for_of body i post h) as [[c2 h2] r].
  - unfold ReporterDispatcher.bind at 1 2.
    destruct (body i x h) as [[c0 h0] [[]|e]]; [|done].
    rewrite IH. replace (S i + length pre) with (i + S (length pre)) by lia.
    destruct (ReporterDispatcher.for_of body (S i) pre h0)
      as [[c1 h1] [[]|e]]; [|done].
    destruct (ReporterDispatcher.for_of body (i + S (length pre)) post h1)
      as [[c2 h2] r].
    by rewrite app_assoc.
Qed.

(** When a reporter's method rejects during [onTestFileResult], the
    reporters registered after it are not called, the method of the
    dispatcher rejects with the same error, and the store is the one the
    rejecting method left: the three payload fields are not cleared. *)
Theorem file_result_rejection_skips_the_rest
    (this : ReporterDispatcher.Dispatcher) (test : Value) (testResult : nat)
    (results : Value) (h h1 h2 : Heap)
    (pre post : list ReporterDispatcher.Reporter.t)
    (r : ReporterDispatcher.Reporter.t) (calls : list Call) (f : Hook)
    (e : JsError) :
  ReporterDispatcher._reporters this = pre ++ r :: post →
  ReporterDispatcher.for_of (fileResultBody test testResult results) 0 pre h
  = (calls, h1, Return ()) →
  (ReporterDispatcher.Reporter.onTestFileResult r = Some f
   ∨ (ReporterDispatcher.Reporter.onTestFileResult r = None
      ∧ ReporterDispatcher.Reporter.onTestResult r = Some f)) →
  f [test; VObject testResult; results] h1 = (h2, Some e) →
  onTestFileResult this test testResult results h
  = (calls ++ [ {| callee := length pre;
                   method :=
                     if present (ReporterDispatcher.Reporter.onTestFileResult r)
                     then onTestFileResult_ else onTestResult_;
                   arguments := [test; VObject testResult; results] |} ],
     h2, Throw e).
Proof.
  intros Hrs Hpre Hf Hrej.
  rewrite DispatcherFacts.onTestFileResult_unfold, Hrs, file_for_of_app, Hpre.
  simpl. unfold ReporterDispatcher.bind at 1.
  unfold fileResultBody, await.
  destruct Hf as [Hp|[Hp Hl]]; rewrite Hp; [|rewrite Hl]; by rewrite Hrej.
Qed.

Lemma file_result_rejection_skips_the_rest_witness :
  let failing : ReporterDispatcher.Reporter.t :=
    {| ReporterDispatcher.Reporter.onTestFileResult := None;
       ReporterDispatcher.Reporter.onTestResult :=
         Some (λ _ h, (h, Some (OtherError "disk full")));
       ReporterDispatcher.Reporter.onTestFileStart := None;
       ReporterDispatcher.Reporter.onTestStart := None |} in
  let this :=
    ReporterDispatcher.register ReporterDispatcher.Demo.both
      (ReporterDispatcher.register failing
         (ReporterDispatcher.register ReporterDispatcher.Demo.legacyOnly
            ReporterDispatcher.constructor)) in
  ∃ h',
    onTestFileResult this VNull 0 VNull ReporterDispatcher.Demo.store
    = ([ {| callee := 0; method := onTestResult_;
            arguments := [VNull; VObject 0; VNull] |};
         {| callee := 1; method := onTestResult_;
            arguments := [VNull; VObject 0; VNull] |} ],
       h', Throw (OtherError "disk full"))
    ∧ (h' !! 0) ≫= (.!! "coverage") = Some (VObject 8)
    ∧ (h' !! 0) ≫= (.!! "preferred") = None.
Proof.
  intros failing this.
  unshelve epose proof (file_result_rejection_skips_the_rest this VNull 0 VNull
              ReporterDispatcher.Demo.store
              (<[0 := <["legacy" := VBool true]>
                        ReporterDispatcher.Demo.testResult]>
                 ReporterDispatcher.Demo.store)
              (<[0 := <["legacy" := VBool true]>
                        ReporterDispatcher.Demo.testResult]>
                 ReporterDispatcher.Demo.store)
              [ReporterDispatcher.Demo.legacyOnly]
              [ReporterDispatcher.Demo.both] failing
              [ {| callee := 0; method := onTestResult_;
                   arguments := [VNull; VObject 0; VNull] |} ]
              (λ _ h, (h, Some (OtherError "disk full")))
              (OtherError "disk full") _ _ _ _)
    as Hrun.
  { reflexivity. }
  { vm_compute. reflexivity. }
  { right. split; reflexivity. }
  { reflexivity. }
  eexists. split; [exact Hrun|].
  split; vm_compute; reflexivity.
Defined.

(** *** The events with one method *)

Lemma for_of_deliveries ev method args (reporters : list Reporter.t)
    (i : nat) (h : Heap) :
  match for_of (λ i reporter, notify i ev (method reporter) args)
          i reporters h with
  | (notices, _, Return _) => notices = deliveries ev method args i reporters
  | (notices, _, Throw _) =>
      notices `prefix_of` deliveries ev method args i reporters
  end.
Proof.
  revert i h. induction reporters as [|r rest IH]; intros i h; simpl.
  - done.
  - unfold bind, notify at 1. destruct (method r) as [f|]; simpl.
    + destruct (f args h) as [h1 [e|]]; simpl.
      * by apply prefix_cons, prefix_nil.
      * specialize (IH (S i) h1).
        destruct (for_of _ (S i) rest h1) as [[n2 h2] [[]|e]]; simpl.
        -- by rewrite IH.
        -- by apply prefix_cons.
    + specialize (IH (S i) h).
      by destruct (for_of _ (S i) rest h) as [[n2 h2] [[]|e]].
Qed.

Lemma for_of_app body (pre post : list Reporter.t) (i : nat) (h : Heap) :
  for_of body i (pre ++ post) h
  = match for_of body i pre h with
    | (n1, h1, Return _) =>
        match for_of body (i + length pre) post h1 with
        | (n2, h2, r) => (n1 ++ n2, h2, r)
        end
    | (n1, h1, Throw e) => (n1, h1, Throw e)
    end.
Proof.
  revert i h. induction pre as [|x pre IH]; intros i h; simpl.
  - unfold ret. rewrite Nat.add_0_r.
    by destruct (for_of body i post h) as [[n2 h2] r].
  - unfold bind at 1 2.
    destruct (body i x h) as [[n0 h0] [[]|e]]; [|done].
    rewrite IH. replace (S i + length pre) with (i + S (length pre)) by lia.
    destruct (for_of body (S i) pre h0) as [[n1 h1] [[]|e]]; [|done].
    destruct (for_of body (i + S (length pre)) post h1) as [[n2 h2] r].
    by rewrite app_assoc.
Qed.

Lemma deliveries_receivers ev method args (reporters : list Reporter.t)
    (i : nat) :
  sublist (receiver <$> deliveries ev method args i reporters)
    (seq i (length reporters)).
Proof.
  revert i. induction reporters as [|r rest IH]; intros i; simpl.
  - constructor.
  - destruct (present (method r)); simpl;
      [apply sublist_skip, IH|apply sublist_cons, IH].
Qed.

Lemma deliveries_lookup ev method args (reporters : list Reporter.t)
    (i k : nat) (r : Reporter.t) :
  reporters !! k = Some r →
  is_Some (method r)
  ↔ {| receiver := i + k; event := ev; payload := args |}
    ∈ deliveries ev method args i reporters.
Proof.
  revert i k. induction reporters as [|r0 rest IH]; intros i k Hk; [done|].
  assert (∀ j n, n ∈ deliveries ev method args j rest → j ≤ receiver n)
    as Hge.
  { clear. induction rest as [|x rest IH]; intros j n; simpl.
    - by intros ?%elem_of_nil.
    - intros [Hin|Hin]%elem_of_app.
      + destruct (present (method x)); [|by apply elem_of_nil in Hin].
        apply list_elem_of_singleton in Hin as ->. simpl. lia.
      + specialize (IH _ _ Hin). lia. }
  destruct k as [|k]; simpl in *.
  - injection Hk as ->. rewrite Nat.add_0_r. split.
    + intros [f Hf]. rewrite Hf. simpl. apply list_elem_of_here.
    + intros [Hin|Hin]%elem_of_app.
      * destruct (method r); [by eauto|by apply elem_of_nil in Hin].
      * specialize (Hge _ _ Hin). simpl in Hge. lia.
  - rewrite (IH (S i) k Hk).
    replace (S i + k) with (i + S k) by lia. split.
    + intros Hin. apply elem_of_app. by right.
    + intros [Hin|Hin]%elem_of_app; [|done].
      destruct (present (method r0)); [|by apply elem_of_nil in Hin].
      apply list_elem_of_singleton in Hin. injection Hin as Hin. lia.
Qed.

(** [onRunStart], [onTestCaseResult] and [onRunComplete] deliver their
    event to the reporters that have the method, each once and in
    registration order; a reporter without the method is passed over.
    When a method rejects, the reporters before it have been served,
    those after it are not, and the error and the store of the rejecting
    method are the outcome. *)
Theorem events_reach_reporters_in_order (this : Dispatcher) :
  (∀ results options,
     onRunStart this results options
     = dispatch onRunStart_ Reporter.onRunStart [results; options] this)
  ∧ (∀ test testCase testCaseResult,
       onTestCaseResult this test testCase testCaseResult
       = dispatch onTestCaseResult_ Reporter.onTestCaseResult
           [test; testCase; testCaseResult] this)
  ∧ (∀ contexts results,
       onRunComplete this contexts results
       = dispatch onRunComplete_ Reporter.onRunComplete
           [contexts; results] this)
  ∧ ∀ ev method args (h : Heap),
      let expected := deliveries ev method args 0 (_reporters this) in
      match dispatch ev method args this h with
      | (notices, _, Return _) => notices = expected
      | (notices, _, Throw _) => notices `prefix_of` expected
      end
      ∧ sublist (receiver <$> expected) (seq 0 (length (_reporters this)))
      ∧ (∀ k r, _reporters this !! k = Some r →
           is_Some (method r)
           ↔ {| receiver := k; event := ev; payload := args |} ∈ expected)
      ∧ (∀ pre r post notices h1 f h2 e,
           _reporters this = pre ++ r :: post →
           for_of (λ i reporter, notify i ev (method reporter) args) 0 pre h
           = (notices, h1, Return ()) →
           method r = Some f →
           f args h1 = (h2, Some e) →
           dispatch ev method args this h
           = (notices ++ [ {| receiver := length pre; event := ev;
                              payload := args |} ],
              h2, Throw e)).
Proof.
  split; [done|]. split; [done|]. split; [done|].
  intros ev method args h expected.
  split; [apply for_of_deliveries|].
  split; [apply deliveries_receivers|]. split.
  - intros k r Hk. by apply (deliveries_lookup ev method args _ 0 k r).
  - intros pre r post notices h1 f h2 e Hrs Hpre Hf Hrej.
    unfold dispatch. rewrite Hrs, for_of_app, Hpre. simpl.
    unfold bind at 1, notify at 1. by rewrite Hf, Hrej.
Qed.

Lemma events_reach_reporters_in_order_witness :
  onRunStart Demo.dispatcher VNull VNull ∅
  = ([ {| receiver := 1; event := onRunStart_; payload := [VNull; VNull] |} ],
     ∅, Throw (OtherError "no tty"))
  ∧ (onRunComplete Demo.dispatcher VNull VNull ∅).1.1
    = [ {| receiver := 0; event := onRunComplete_; payload := [VNull; VNull] |};
        {| receiver := 1; event := onRunComplete_; payload := [VNull; VNull] |};
        {| receiver := 2; event := onRunComplete_; payload := [VNull; VNull] |} ].
Proof.
  destruct (events_reach_reporters_in_order Demo.dispatcher)
    as (Hstart & _ & Hcomplete & Hall).
  split.
  - rewrite Hstart.
    destruct (Hall onRunStart_ Reporter.onRunStart [VNull; VNull] ∅)
      as (_ & _ & _ & Hrej).
    apply (Hrej [Demo.plain] Demo.broken [Demo.summary] [] ∅
             (λ _ h, (h, Some (OtherError "no tty"))) ∅
             (OtherError "no tty")); reflexivity.
  - rewrite Hcomplete.
    destruct (Hall onRunComplete_ Reporter.onRunComplete [VNull; VNull] ∅)
      as (Hrun & _).
    destruct (dispatch onRunComplete_ Reporter.onRunComplete [VNull; VNull]
                Demo.dispatcher ∅) as [[notices h'] [[]|e]] eqn:Heq;
      [|vm_compute in Heq; discriminate Heq].
    simpl. rewrite Hrun. reflexivity.
Defined.

(** *** unregister *)

(** [unregister] removes every reporter that is an instance of the class
    and keeps the others in their order.  Registering an instance and
    then unregistering the class undoes the registration; a reporter of
    another class registered last is still last afterwards.
    Unregistering twice is unregistering once, and the order of two
    [unregister] calls does not matter. *)
Theorem unregister_removes_instances_only (this : Dispatcher)
    (ReporterClass other : nat) (reporter : Reporter.t) :
  (∀ r, r ∈ _reporters (unregister ReporterClass this)
        ↔ r ∈ _reporters this ∧ ReporterClass ∉ Reporter.classes r)
  ∧ sublist (_reporters (unregister ReporterClass this)) (_reporters this)
  ∧ unregister ReporterClass (register reporter this)
    = (if instanceof reporter ReporterClass
       then unregister ReporterClass this
       else register reporter (unregister ReporterClass this))
  ∧ unregister ReporterClass (unregister ReporterClass this)
    = unregister ReporterClass this
  ∧ unregister ReporterClass (unregister other this)
    = unregister other (unregister ReporterClass this)
  ∧ unregister ReporterClass constructor = constructor.
Proof.
  assert (∀ (f g : Reporter.t → bool) l,
            List.filter f (List.filter g l) = List.filter g (List.filter f l))
    as Hcomm.
  { intros f g l. induction l as [|x l IH]; [done|]. simpl.
    destruct (f x) eqn:Hf, (g x) eqn:Hg; simpl; rewrite ?Hf, ?Hg, IH; done. }
  assert (∀ (f : Reporter.t → bool) l,
            List.filter f (List.filter f l) = List.filter f l) as Hidem.
  { intros f l. induction l as [|x l IH]; [done|]. simpl.
    destruct (f x) eqn:Hf; simpl; rewrite ?Hf, IH; done. }
  split.
  { intros r. unfold unregister. simpl.
    rewrite list_elem_of_In, List.filter_In, <- list_elem_of_In.
    unfold instanceof. rewrite negb_true_iff, bool_decide_eq_false. done. }
  split.
  { unfold unregister. simpl. induction (_reporters this) as [|x l IH];
      simpl; [constructor|].
    destruct (negb (instanceof x ReporterClass)); by constructor. }
  split.
  { unfold unregister, register. simpl. rewrite List.filter_app. simpl.
    destruct (instanceof reporter ReporterClass); simpl;
      by rewrite ?app_nil_r. }
  split; [unfold unregister; simpl; by rewrite Hidem|].
  split; [unfold unregister; simpl; by rewrite Hcomm|done].
Qed.

Lemma deliveries_origin ev method args (reporters : list Reporter.t)
    (i : nat) (n : Notice) :
  n ∈ deliveries ev method args i reporters →
  ∃ r, reporters !! (receiver n - i) = Some r ∧ i ≤ receiver n.
Proof.
  revert i. induction reporters as [|r0 rest IH]; intros i; simpl.
  - by intros ?%elem_of_nil.
  - intros [Hin|Hin]%elem_of_app.
    + destruct (present (method r0)); [|by apply elem_of_nil in Hin].
      apply list_elem_of_singleton in Hin as ->. simpl.
      rewrite Nat.sub_diag. by eauto.
    + destruct (IH _ Hin) as (r & Hr & Hle). exists r. split; [|lia].
      replace (receiver n - i) with (S (receiver n - S i)) by lia. done.
Qed.

(** After [unregister] no event reaches an instance of the class: every
    delivery of an event with one method, and every call of a file-level
    event, goes to a reporter that is still registered and is not an
    instance. *)
Theorem unregistered_reporters_get_no_events (this : Dispatcher)
    (ReporterClass : nat) :
  let rest := unregister ReporterClass this in
  (∀ ev method args (h : Heap) notice,
     notice ∈ (dispatch ev method args rest h).1.1 →
     ∃ r, _reporters rest !! receiver notice = Some r
          ∧ r ∈ _reporters this
          ∧ instanceof r ReporterClass = false)
  ∧ (∀ test testResult results (h : Heap) call,
       call ∈ (onTestFileResult (fileEvents rest) test testResult results h).1.1
       ∨ call ∈ (onTestFileStart (fileEvents rest) test h).1.1 →
       ∃ r, _reporters rest !! callee call = Some r
            ∧ r ∈ _reporters this
            ∧ instanceof r ReporterClass = false).
Proof.
  intros rest.
  assert (∀ k r, _reporters rest !! k = Some r →
                 r ∈ _reporters this ∧ instanceof r ReporterClass = false)
    as Hkept.
  { intros k r Hk. apply list_elem_of_lookup_2 in Hk.
    unfold rest, unregister in Hk. simpl in Hk.
    apply list_elem_of_In, List.filter_In in Hk as [Hin Hneg].
    split; [by apply list_elem_of_In|by apply negb_true_iff]. }
  split.
  - intros ev method args h notice Hin.
    assert (notice ∈ deliveries ev method args 0 (_reporters rest)) as Hex.
    { pose proof (for_of_deliveries ev method args (_reporters rest) 0 h)
        as Hrun.
      unfold dispatch in Hin.
      destruct (for_of _ 0 (_reporters rest) h) as [[notices h'] [[]|e]];
        simpl in Hin; [by rewrite <- Hrun|].
      destruct Hrun as [k ->]. apply elem_of_app. by left. }
    apply deliveries_origin in Hex as (r & Hr & _).
    rewrite Nat.sub_0_r in Hr. exists r. split; [done|]. by eapply Hkept.
  - intros test testResult results h call Hin.
    pose proof (DispatcherFacts.for_of_fallback onTestFileResult_
                  onTestResult_ ReporterDispatcher.Reporter.onTestFileResult
                  ReporterDispatcher.Reporter.onTestResult
                  [test; VObject testResult; results]
                  (ReporterDispatcher._reporters (fileEvents rest)) 0 h)
      as Hresult.
    pose proof (DispatcherFacts.for_of_fallback onTestFileStart_
                  onTestStart_ ReporterDispatcher.Reporter.onTestFileStart
                  ReporterDispatcher.Reporter.onTestStart
                  [test]
                  (ReporterDispatcher._reporters (fileEvents rest)) 0 h)
      as Hstart.
    cbv zeta in Hresult, Hstart.
    assert (∃ r0, (Reporter.fileMethods <$> _reporters rest) !! callee call
                  = Some r0) as [r0 Hr0].
    { destruct Hin as [Hin|Hin].
      - rewrite DispatcherFacts.onTestFileResult_unfold in Hin.
        change (fallbackBody _ _ _ _ _) with
          (fileResultBody test testResult results) in Hresult.
        destruct (ReporterDispatcher.for_of _ 0 _ h)
          as [[calls h'] [[]|e]]; simpl in Hin.
        + rewrite Hresult in Hin.
          apply DispatcherFacts.fallbackCalls_lookup in Hin as (r0 & Hr0 & _).
          rewrite Nat.sub_0_r in Hr0. by eauto.
        + destruct Hresult as [k Hk].
          assert (call ∈ calls ++ k) as Hex by (apply elem_of_app; by left).
          rewrite <- Hk in Hex.
          apply DispatcherFacts.fallbackCalls_lookup in Hex as (r0 & Hr0 & _).
          rewrite Nat.sub_0_r in Hr0. by eauto.
      - unfold onTestFileStart in Hin.
        change (fallbackBody _ _ _ _ _) with (fileStartBody test) in Hstart.
        destruct (ReporterDispatcher.for_of _ 0 _ h)
          as [[calls h'] [[]|e]]; simpl in Hin.
        + rewrite Hstart in Hin.
          apply DispatcherFacts.fallbackCalls_lookup in Hin as (r0 & Hr0 & _).
          rewrite Nat.sub_0_r in Hr0. by eauto.
        + destruct Hstart as [k Hk].
          assert (call ∈ calls ++ k) as Hex by (apply elem_of_app; by left).
          rewrite <- Hk in Hex.
          apply DispatcherFacts.fallbackCalls_lookup in Hex as (r0 & Hr0 & _).
          rewrite Nat.sub_0_r in Hr0. by eauto. }
    unfold fileEvents in Hr0. cbn [ReporterDispatcher._reporters] in Hr0.
    rewrite list_lookup_fmap in Hr0.
    destruct (_reporters rest !! callee call) as [r|] eqn:Hr;
      [|discriminate Hr0].
    exists r. split; [done|]. by eapply Hkept.
Qed.

(** *** getErrors and hasErrors *)

Lemma reduce_quiet (h : Heap) (reporters : list Reporter.t)
    (errors : list JsError) :
  Forall (quiet h) reporters →
  reduce reporters errors h = (h, Return (errors ++ omap (lastError h) reporters)).
Proof.
  revert errors. induction reporters as [|r rest IH]; intros errors Hq; simpl.
  - by rewrite app_nil_r.
  - apply Forall_cons in Hq as [Hr Hrest].
    unfold collect, lastError at 1.
    destruct (Reporter.getLastError r) as [g|] eqn:Hg; [|by apply IH].
    destruct (Hr g Hg) as [error ->].
    destruct error as [error|]; rewrite IH by done; [|done].
    by rewrite <- app_assoc.
Qed.

(** When the [getLastError] methods only read the store, [getErrors]
    returns the errors they report, in registration order, and leaves
    the store as it is: a reporter without the method or with a falsy
    result adds nothing.  [hasErrors] tells whether some reporter
    reports an error, and the error of a reporter registered last comes
    last. *)
Theorem getErrors_in_registration_order (this : Dispatcher) (h : Heap) :
  Forall (quiet h) (_reporters this) →
  getErrors this h = (h, Return (omap (lastError h) (_reporters this)))
  ∧ (∃ answer,
       hasErrors this h = (h, Return answer)
       ∧ (answer = true
          ↔ ∃ r, r ∈ _reporters this ∧ is_Some (lastError h r)))
  ∧ (∀ reporter,
       quiet h reporter →
       getErrors (register reporter this) h
       = (h, Return (omap (lastError h) (_reporters this)
                     ++ option_list (lastError h reporter)))).
Proof.
  intros Hq. pose proof (reduce_quiet h _ [] Hq) as Hred. simpl in Hred.
  split; [exact Hred|]. split.
  - unfold hasErrors, getErrors. rewrite Hred. eexists. split; [done|].
    rewrite negb_true_iff, Nat.eqb_neq. split.
    + intros Hne. destruct (omap (lastError h) (_reporters this))
        as [|e l] eqn:Hl; [done|].
      assert (e ∈ omap (lastError h) (_reporters this)) as Hin.
      { rewrite Hl. apply list_elem_of_here. }
      apply list_elem_of_omap in Hin as (r & Hr & He). by eauto.
    + intros (r & Hr & [e He]) Hlen.
      assert (e ∈ omap (lastError h) (_reporters this)) as Hin.
      { apply list_elem_of_omap. by eauto. }
      destruct (omap (lastError h) (_reporters this)); [|done].
      by apply elem_of_nil in Hin.
  - intros reporter Hr. unfold getErrors, register. simpl.
    rewrite reduce_quiet.
    + simpl. rewrite omap_app. simpl.
      by destruct (lastError h reporter).
    + apply Forall_app. split; [done|]. by apply Forall_singleton.
Qed.

Lemma getErrors_in_registration_order_witness :
  getErrors Demo.dispatcher {[ 0 := ∅ ]}
  = ({[ 0 := ∅ ]}, Return [OtherError "snapshot mismatch"])
  ∧ hasErrors Demo.dispatcher {[ 0 := ∅ ]} = ({[ 0 := ∅ ]}, Return true).
Proof.
  assert (Forall (quiet {[ 0 := ∅ ]}) (_reporters Demo.dispatcher)) as Hq.
  { repeat apply Forall_cons_2; [..|apply Forall_nil_2];
      intros g Hg; vm_compute in Hg; try discriminate Hg;
      injection Hg as <-; eexists; vm_compute; reflexivity. }
  destruct (getErrors_in_registration_order Demo.dispatcher {[ 0 := ∅ ]} Hq)
    as (Herrors & (answer & Hhas & Hiff) & _).
  split; [rewrite Herrors; vm_compute; reflexivity|].
  rewrite Hhas. f_equal. f_equal. apply Hiff.
  exists Demo.summary. split; [|eexists; vm_compute; reflexivity].
  unfold Demo.dispatcher, register. simpl.
  do 2 apply list_elem_of_further. apply list_elem_of_here.
Defined.

End LifecycleFacts.

(** ** TestNamePatternPrompt: the cache *)

Module CacheFacts.
Import TestNamePatternPrompt.

(** A query throws only as long as the cache has never been set.  After
    [updateCachedTestResults] with any argument, [null] and [undefined]
    included, every query returns, and what it returns are titles of the
    records just given, in their order, whatever the cache held before:
    the records of an earlier update are gone. *)
Theorem cache_is_replaced_wholesale {RegExp : Type}
    (RegExp_new : string → string → option RegExp)
    (RegExp_test : RegExp → string → bool)
    (this : Prompt) (testResults earlier : Nullable (list TestResult))
    (pattern : string) :
  let query p := _getMatchedTests RegExp_new RegExp_test p pattern in
  (∃ matched,
     query (updateCachedTestResults testResults this) = Return matched
     ∧ sublist matched (cachedTitles (or_default testResults []))
     ∧ length matched ≤ length (cachedTitles (or_default testResults []))
     ∧ query (updateCachedTestResults testResults
                (updateCachedTestResults earlier this)) = Return matched
     ∧ query (updateCachedTestResults testResults constructor)
       = Return matched)
  ∧ (is_Some (RegExp_new pattern "i") →
     query constructor
     = Throw (TypeError "Cannot read property 'forEach' of undefined")).
Proof.
  cbv zeta. split.
  - unfold _getMatchedTests. simpl.
    destruct (RegExp_new pattern "i") as [regex|].
    + eexists. split; [done|]. rewrite PromptFacts.visitRecord_foldl. simpl.
      split; [apply PromptFacts.filter_sublist|].
      split; [|done]. apply sublist_length, PromptFacts.filter_sublist.
    + exists []. split; [done|]. split; [apply sublist_nil_l|].
      split; [simpl; lia|done].
  - intros [regex Hnew]. unfold _getMatchedTests. by rewrite Hnew.
Qed.

Lemma cache_is_replaced_wholesale_witness :
  _getMatchedTests Words.compile Words.test constructor "add"
  = Throw (TypeError "Cannot read property 'forEach' of undefined")
  ∧ _getMatchedTests Words.compile Words.test
      (updateCachedTestResults Null
         (updateCachedTestResults (Defined demoCache) constructor)) "add"
    = Return [].
Proof.
  destruct (cache_is_replaced_wholesale Words.compile Words.test constructor
              Null (Defined demoCache) "add")
    as ((matched & _ & Hsub & _ & Hlater & _) & Hbefore).
  split.
  - apply Hbefore. eexists. reflexivity.
  - rewrite Hlater. f_equal. simpl in Hsub. by apply sublist_nil_r in Hsub.
Defined.

(** Matching goes record by record: the matches over two caches put one
    after the other are the matches over the first followed by the
    matches over the second, and only the sequence of titles matters,
    not how it is cut into records. *)
Theorem matching_goes_record_by_record {RegExp : Type}
    (RegExp_new : string → string → option RegExp)
    (RegExp_test : RegExp → string → bool)
    (first second : list TestResult) (pattern : string) :
  let query cached :=
    _getMatchedTests RegExp_new RegExp_test
      (updateCachedTestResults (Defined cached) constructor) pattern in
  (∃ m1 m2,
     query first = Return m1 ∧ query second = Return m2
     ∧ query (first ++ second) = Return (m1 ++ m2))
  ∧ (cachedTitles first = cachedTitles second → query first = query second).
Proof.
  cbv zeta. unfold _getMatchedTests. simpl.
  destruct (RegExp_new pattern "i") as [regex|].
  - rewrite !PromptFacts.visitRecord_foldl. simpl. split.
    + do 2 eexists. split; [done|]. split; [done|].
      unfold cachedTitles. by rewrite bind_app, List.filter_app.
    + by intros ->.
  - split; [|done]. by exists [], [].
Qed.

End CacheFacts.

(** ** TestNamePatternPrompt: rendering *)

Module ViewFacts.
Import TestNamePatternPrompt PatternView.

Section Rendering.
Variable T : Terminal.
Context {RegExp : Type}.
Variable RegExp_new : string → string → option RegExp.
Variable RegExp_test : RegExp → string → bool.

Lemma highlight_rows index i (items : list string) :
  length (highlight T index i items).2 = length items.
Proof.
  revert i. induction items as [|item rest IH]; intros i; simpl; [done|].
  specialize (IH (S i)). destruct (highlight T index (S i) rest) as [calls rows].
  destruct (Z.of_nat i =? index)%Z; simpl in *; by rewrite IH.
Qed.

Lemma highlight_calls index i (items : list string) :
  (highlight T index i items).1
  = if decide (Z.of_nat i ≤ index)%Z
    then match items !! Z.to_nat (index - Z.of_nat i) with
         | Some item => [setSelected ("^" +:+ stripColor T item +:+ "$")]
         | None => []
         end
    else [].
Proof.
  revert i. induction items as [|item rest IH]; intros i; simpl.
  - by destruct (decide _).
  - specialize (IH (S i)).
    destruct (highlight T index (S i) rest) as [calls rows]. simpl in IH.
    destruct (Z.of_nat i =? index)%Z eqn:Hi.
    + apply Z.eqb_eq in Hi. simpl. rewrite IH.
      rewrite decide_False by lia. rewrite decide_True by lia.
      replace (index - Z.of_nat i)%Z with 0%Z by lia. done.
    + apply Z.eqb_neq in Hi. simpl. rewrite IH.
      destruct (decide (Z.of_nat (S i) ≤ index)%Z) as [Hle|Hgt].
      * rewrite decide_True by lia.
        replace (Z.to_nat (index - Z.of_nat i))
          with (S (Z.to_nat (index - Z.of_nat (S i)))) by lia.
        done.
      * destruct (decide (Z.of_nat i ≤ index)%Z); [lia|done].
Qed.

Lemma splitLength_app (a b : string) :
  splitLength (a +:+ b) + 1 = splitLength a + splitLength b.
Proof.
  induction a as [|c a IH]; [change ("" +:+ b) with b; simpl; lia|].
  change (String c a +:+ b) with (String c (a +:+ b)). cbn [splitLength].
  destruct (Ascii.eqb c (ascii_of_nat 10)); lia.
Qed.

End Rendering.

(** Rendering fails exactly as long as the cache has never been set.
    Before the first [updateCachedTestResults], [_printTypeahead] with a
    pattern that compiles throws before it writes anything, so that
    [_onChange] has erased the line and nothing more; after an update,
    with whatever argument, neither method throws. *)
Theorem rendering_needs_the_cache (T : Terminal) {RegExp : Type}
    (RegExp_new : string → string → option RegExp)
    (RegExp_test : RegExp → string → bool)
    (this : View) (pattern : string) (options : Options)
    (incoming : option (option Z * option Z)) :
  (_cachedTestResults (cache this) = None →
   is_Some (RegExp_new pattern "i") →
   ∃ e,
     _printTypeahead T RegExp_new RegExp_test pattern options this
     = (this, Some e)
     ∧ _onChange T RegExp_new RegExp_test pattern incoming this
       = (write (cursorLeft T) (write (eraseLine T) this), Some e))
  ∧ (∀ testResults,
       (_printTypeahead T RegExp_new RegExp_test pattern options
          (updateCachedTestResults testResults this)).2 = None
       ∧ (_onChange T RegExp_new RegExp_test pattern incoming
            (updateCachedTestResults testResults this)).2 = None).
Proof.
  split.
  - intros Hnone [regex Hnew]. eexists.
    unfold _onChange, _printTypeahead, _getMatchedTests. simpl.
    rewrite Hnew, Hnone. done.
  - intros testResults.
    unfold _onChange, _printTypeahead, _getMatchedTests. simpl.
    destruct (RegExp_new pattern "i"); simpl;
      repeat match goal with
             | |- context [let '(_, _) := ?p in _] => destruct p
             | |- context [if ?b then _ else _] => destruct b
             end; done.
Qed.

Lemma rendering_needs_the_cache_witness :
  (_onChange Demo.terminal Words.compile Words.test "add" None
     (constructor Demo.terminal)).2
  = Some (TypeError "Cannot read property 'forEach' of undefined")
  ∧ _pipe (_onChange Demo.terminal Words.compile Words.test "add" None
             (constructor Demo.terminal)).1
    = ["<eraseLine>"; "<left>"]%string.
Proof.
  destruct (rendering_needs_the_cache Demo.terminal Words.compile Words.test
              (constructor Demo.terminal) "add"
              {| max := 10; offset := None |} None)
    as (Hbefore & _).
  destruct Hbefore as (e & Hprint & Hchange);
    [reflexivity|eexists; reflexivity|].
  rewrite Hchange. split; [|reflexivity].
  simpl. f_equal. vm_compute in Hprint. by injection Hprint as <-.
Defined.

(** A rendering that does not fail writes, after what was there: the
    sequence that erases downwards, the input line and the sequence that
    saves the cursor; then its body; then the move to the end of the
    input line, on the row above the usage rows, and the sequence that
    restores the cursor.  With an empty pattern the body is the hint
    alone, whatever the cache holds, and the prompt is not called.  With
    another pattern the body is the count line, which names the number
    of matches in the singular or the plural, or "no tests" for none; the source line; one row for each title in the window; and
    the line that tells how many more there are exactly when the matches
    outnumber [max].  The cache and the usage rows are as before. *)
Theorem rendering_shape (T : Terminal) {RegExp : Type}
    (RegExp_new : string → string → option RegExp)
    (RegExp_test : RegExp → string → bool)
    (this : View) (pattern : string) (options : Options)
    (matched : list string) :
  _getMatchedTests RegExp_new RegExp_test (cache this) pattern
  = Return matched →
  let this' :=
    (_printTypeahead T RegExp_new RegExp_test pattern options this).1 in
  let inputText := dim T " pattern ›" +:+ " " +:+ pattern in
  let total := length matched in
  let window := scroll T total options in
  ∃ body,
    _pipe this'
    = _pipe this
      ++ [eraseDown T; inputText; cursorSavePosition T]
      ++ body
      ++ [cursorTo T (Z.of_nat (stringLength T inputText))
            (Z.of_nat (_currentUsageRows this) - 1)%Z;
          cursorRestorePosition T]
    ∧ cache this' = cache this
    ∧ _currentUsageRows this' = _currentUsageRows this
    ∧ (pattern = ""%string →
       body = [nl +:+ nl +:+ " "
               +:+ italic_yellow T
                     "Start typing to filter by a test name regex pattern."]
       ∧ _prompt this' = _prompt this)
    ∧ (pattern ≠ ""%string →
       ∃ rows,
         body
         = [if decide (total = 0)
            then nl +:+ nl +:+ " Pattern matches no tests"
            else nl +:+ nl +:+ " Pattern matches " +:+ pretty total
                 +:+ " " +:+ pluralizeTest total;
            " from cached test suites."%string]
           ++ rows
           ++ (if decide (max options < Z.of_nat total)%Z
               then [nl +:+ " "
                     +:+ dim T ("› and "
                                +:+ pretty (Z.of_nat total - max options)%Z
                                +:+ " more "
                                +:+ pluralizeTest
                                      (Z.to_nat (Z.of_nat total - max options)))]
               else [])
         ∧ length rows
           = length (slice matched (start window) (end_ window))
         ∧ length rows ≤ total).
Proof.
  intros Hmatched. cbv zeta. unfold _printTypeahead. rewrite Hmatched.
  cbv zeta.
  destruct (pattern =? "")%string eqn:Hp.
  - apply String.eqb_eq in Hp. subst pattern. cbn [negb].
    exists [nl +:+ nl +:+ " "
            +:+ italic_yellow T
                  "Start typing to filter by a test name regex pattern."].
    split; [simpl; by rewrite <- !app_assoc|].
    split; [done|]. split; [done|]. split; [done|]. done.
  - apply String.eqb_neq in Hp. cbn [negb].
    pose proof (highlight_rows T
                  (index (scroll T (length matched) options)) 0
                  ((λ name, formatTestNameByPattern T name pattern
                              (getTerminalWidth T - 4)%Z)
                     <$> slice matched
                           (start (scroll T (length matched) options))
                           (end_ (scroll T (length matched) options))))
      as Hrows.
    destruct (highlight T _ 0 _) as [calls rows]. simpl in Hrows.
    rewrite length_fmap in Hrows.
    assert (length (slice matched
                      (start (scroll T (length matched) options))
                      (end_ (scroll T (length matched) options)))
            ≤ length matched) as Hle.
    { unfold slice. rewrite length_take, length_drop. lia. }
    set (rows' := (λ output, nl +:+ " " +:+ dim T "›" +:+ " " +:+ output)
                    <$> rows).
    exists ([if decide (length matched = 0)
             then nl +:+ nl +:+ " Pattern matches no tests"
             else nl +:+ nl +:+ " Pattern matches " +:+ pretty (length matched)
                  +:+ " " +:+ pluralizeTest (length matched);
             " from cached test suites."%string]
            ++ rows'
            ++ (if decide (max options < Z.of_nat (length matched))%Z
                then [nl +:+ " "
                      +:+ dim T ("› and "
                                 +:+ pretty (Z.of_nat (length matched)
                                             - max options)%Z
                                 +:+ " more "
                                 +:+ pluralizeTest
                                       (Z.to_nat (Z.of_nat (length matched)
                                                  - max options)))]
                else [])).
    split; [|split; [|split; [|split; [done|]]]].
    + destruct (length matched =? 0)%nat eqn:H0;
        [apply Nat.eqb_eq in H0; rewrite decide_True by done
        |apply Nat.eqb_neq in H0; rewrite decide_False by done];
        (destruct (max options <? Z.of_nat (length matched))%Z eqn:Hm;
         [apply Z.ltb_lt in Hm; rewrite decide_True by done
         |apply Z.ltb_ge in Hm; rewrite decide_False by lia]);
        simpl; fold rows'; rewrite <- ?app_assoc; reflexivity.
    + by destruct (length matched =? 0)%nat,
        (max options <? Z.of_nat (length matched))%Z.
    + by destruct (length matched =? 0)%nat,
        (max options <? Z.of_nat (length matched))%Z.
    + intros _. exists rows'. split; [reflexivity|].
      unfold rows'. rewrite length_fmap. split; [done|lia].
Qed.

Lemma rendering_shape_witness :
  take 5 (_pipe (_printTypeahead Demo.terminal Words.compile Words.test
                   "numbers" {| max := 1; offset := None |} Demo.view).1)
  = [ "<eraseDown>"; " pattern › numbers"; "<save>";
      nl +:+ nl +:+ " Pattern matches 2 tests";
      " from cached test suites." ]%string.
Proof.
  destruct (rendering_shape Demo.terminal Words.compile Words.test Demo.view
              "numbers" {| max := 1; offset := None |}
              ["adds numbers"; "subtracts numbers"]%string)
    as (body & Hpipe & _ & _ & _ & Hbody).
  { vm_compute. reflexivity. }
  destruct Hbody as (rows & -> & _); [discriminate|].
  rewrite Hpipe. vm_compute. reflexivity.
Defined.

(** With a pattern that is not empty, a rendering reports to the prompt
    the row of the window that [scroll] gives as the index, as the title
    between anchors, and no other: one call when the index falls on a
    row of the window, none when it does not. *)
Theorem selected_row_is_reported (T : Terminal) {RegExp : Type}
    (RegExp_new : string → string → option RegExp)
    (RegExp_test : RegExp → string → bool)
    (this : View) (pattern : string) (options : Options)
    (matched : list string) :
  _getMatchedTests RegExp_new RegExp_test (cache this) pattern
  = Return matched →
  pattern ≠ ""%string →
  let this' :=
    (_printTypeahead T RegExp_new RegExp_test pattern options this).1 in
  let window := scroll T (length matched) options in
  let visible :=
    (λ name, formatTestNameByPattern T name pattern (getTerminalWidth T - 4)%Z)
      <$> slice matched (start window) (end_ window) in
  _prompt this'
  = _prompt this
    ++ (if decide (0 ≤ index window)%Z
        then match visible !! Z.to_nat (index window) with
             | Some item => [setSelected ("^" +:+ stripColor T item +:+ "$")]
             | None => []
             end
        else []).
Proof.
  intros Hmatched Hp. cbv zeta. unfold _printTypeahead. rewrite Hmatched.
  cbv zeta. rewrite (proj2 (String.eqb_neq _ _) Hp). cbn [negb].
  pose proof (highlight_calls T
                (index (scroll T (length matched) options)) 0
                ((λ name, formatTestNameByPattern T name pattern
                            (getTerminalWidth T - 4)%Z)
                   <$> slice matched
                         (start (scroll T (length matched) options))
                         (end_ (scroll T (length matched) options))))
    as Hcalls.
  destruct (highlight T _ 0 _) as [calls rows]. simpl in Hcalls.
  rewrite Z.sub_0_r in Hcalls. subst calls.
  by destruct (length matched =? 0)%nat,
    (max options <? Z.of_nat (length matched))%Z.
Qed.

Lemma selected_row_is_reported_witness :
  _prompt (_printTypeahead Demo.terminal Words.compile Words.test "numbers"
             {| max := 1; offset := None |} Demo.view).1
  = [setSelected "^adds numbers$"].
Proof.
  rewrite (selected_row_is_reported Demo.terminal Words.compile Words.test
             Demo.view "numbers" {| max := 1; offset := None |}
             ["adds numbers"; "subtracts numbers"]%string).
  - vm_compute. reflexivity.
  - vm_compute. reflexivity.
  - discriminate.
Defined.

(** [run] writes the sequences that hide the cursor and clear the screen,
    the header if there is one, the usage text and the sequence that
    shows the cursor, and enters the prompt.  It sets the usage rows to
    those of the usage text plus the lines of the header, from scratch:
    the rows of an earlier [run] do not add up.  When the styles add no
    line break the usage text has six rows. *)
Theorem run_counts_usage_rows (T : Terminal) (this : View)
    (onSuccess onCancel : Value) (header : option string) :
  let shown :=
    match header with
    | Some h => if (h =? "")%string then None else Some h
    | None => None
    end in
  let this' := run T onSuccess onCancel header this in
  _currentUsageRows this'
  = usageRows T + from_option splitLength 0 shown
  ∧ _pipe this'
    = _pipe this
      ++ [cursorHide T; clearScreen T]
      ++ from_option (λ h, [h +:+ nl]) [] shown
      ++ [usage T; cursorShow T]
  ∧ _prompt this' = _prompt this ++ [enter onSuccess onCancel]
  ∧ cache this' = cache this
  ∧ (∀ onSuccess' onCancel' earlier,
       _currentUsageRows
         (run T onSuccess onCancel header
            (run T onSuccess' onCancel' earlier this))
       = _currentUsageRows this')
  ∧ ((∀ s, splitLength (bold T s) = splitLength s) →
     (∀ s, splitLength (dim T s) = splitLength s) →
     usageRows T = 6).
Proof.
  cbv zeta.
  assert (∀ that,
            _currentUsageRows (run T onSuccess onCancel header that)
            = usageRows T
              + from_option splitLength 0
                  match header with
                  | Some h => if (h =? "")%string then None else Some h
                  | None => None
                  end) as Hrows.
  { intros that. unfold run. cbv zeta.
    generalize (usageRows T). intros u.
    destruct header as [h|]; [destruct (h =? "")%string|]; simpl; lia. }
  split; [apply Hrows|]. split.
  { unfold run. cbv zeta.
    destruct header as [h|]; [destruct (h =? "")%string|]; simpl;
      by rewrite <- !app_assoc. }
  split.
  { unfold run. cbv zeta.
    by destruct header as [h|]; [destruct (h =? "")%string|]. }
  split.
  { unfold run. cbv zeta.
    by destruct header as [h|]; [destruct (h =? "")%string|]. }
  split; [intros; by rewrite !Hrows|].
  intros Hbold Hdim. unfold usageRows, usage.
  assert (∀ a b, splitLength (a +:+ b) = splitLength a + splitLength b - 1)
    as Happ.
  { intros a b. pose proof (splitLength_app a b). lia. }
  rewrite !Happ, !Hbold, !Hdim. reflexivity.
Qed.

Lemma run_counts_usage_rows_witness :
  usageRows Demo.terminal = 6
  ∧ _currentUsageRows
      (run Demo.terminal VNull VNull (Some ("Filtering" +:+ nl +:+ "by name"))
         (run Demo.terminal VNull VNull (Some "Earlier"%string)
            (constructor Demo.terminal)))
    = 8.
Proof.
  destruct (run_counts_usage_rows Demo.terminal
              (run Demo.terminal VNull VNull (Some "Earlier"%string)
                 (constructor Demo.terminal))
              VNull VNull (Some ("Filtering" +:+ nl +:+ "by name")))
    as (Hrows & _ & _ & _ & _ & Hsix).
  split.
  - apply Hsix; intros s; reflexivity.
  - rewrite Hrows. vm_compute. reflexivity.
Defined.

End ViewFacts.
